(** * Client-side stores and chat exchange of the shopping assistant frontend

    A shallow embedding of
      - [src/frontend/store/chatStore.ts]      (chat history store),
      - the cart store ([useCartStore], second module of
        [src/frontend/store/authStore.ts]),
      - [src/frontend/store/lookbookStore.ts]  (lookbook store),
      - [handleSend] of [src/frontend/components/ChatInterface.tsx],
      - the auth store (first module of [src/frontend/store/authStore.ts]),
        the route guard [src/frontend/components/AuthGuard.tsx], the
        heart button of [src/frontend/components/ProductGrid.tsx], the
        greeting of [src/frontend/components/Header.tsx], the mount
        effect of the chat component and [handleCheckout] of the cart
        page.

    Modelling conventions.
      - A zustand store is a record; an action [set (state => ...)] is a
        function from store state to store state.
      - JavaScript numbers are modelled by [Z]: a product identifier or
        a quantity is a double whose value is an integer.  [===] on
        such numbers is [Z.eqb]; [+] on them is [js_add], which rounds
        the exact sum as binary64 does.  A price is carried as an
        integer code of its value (its amount in minor units, 0 for 0);
        prices are copied and tested against zero only, no arithmetic
        on prices is modelled.
      - Strings are [string]; a character is a code unit below 256.
      - A value of type [any] is a [JsValue].
      - An [async] function is run to completion in one step: the awaited
        HTTP call is answered by a [Server] oracle and recorded in a
        network log, so the requests that were sent can be inspected. *)

From Stdlib Require Import List ZArith String Ascii Bool Lia.
From Stdlib Require Import Floats.SpecFloat.
Import ListNotations.
Local Open Scope string_scope.
Local Open Scope Z_scope.
Local Open Scope list_scope.

(* ================================================================= *)
(** ** JavaScript values *)

#[local] Unset Elimination Schemes.
Inductive JsValue : Type :=
| JUndefined
| JNull
| JBool (b : bool)
| JNumber (n : Z)
| JString (s : string)
| JArray (elems : list JsValue)
| JObject (fields : list (string * JsValue)).
#[local] Set Elimination Schemes.

(** ToBoolean on strings: only the empty string is falsy. *)
Definition truthy_string (s : string) : bool :=
  match s with
  | EmptyString => false
  | String _ _ => true
  end.

(** ToBoolean. *)
Definition truthy (v : JsValue) : bool :=
  match v with
  | JUndefined | JNull => false
  | JBool b => b
  | JNumber n => negb (n =? 0)
  | JString s => truthy_string s
  | JArray _ | JObject _ => true
  end.

Fixpoint lookup_field (k : string) (fields : list (string * JsValue)) : JsValue :=
  match fields with
  | [] => JUndefined
  | (k', v) :: rest => if String.eqb k' k then v else lookup_field k rest
  end.

(** [v?.k] for a key [k] that is not a built-in property of primitives
    or arrays ([clear_cart], [products]): [undefined] on [null] and
    [undefined] (optional chaining), the own property on an object,
    [undefined] elsewhere. *)
Definition opt_chain (v : JsValue) (k : string) : JsValue :=
  match v with
  | JObject fields => lookup_field k fields
  | _ => JUndefined
  end.

(** [x || 0] on an optional number. *)
Definition or_zero (x : option Z) : Z :=
  match x with
  | Some n => if n =? 0 then 0 else n
  | None => 0
  end.

(* ================================================================= *)
(** ** Addition of numbers whose values are integers

    The sum of two doubles is their exact sum rounded to the nearest
    double, ties to the even significand.  Every integer of magnitude
    at most 2^53 is a double; above that a double keeps the 53 leading
    bits of the magnitude. *)

Definition round_to_double (n : Z) : Z :=
  let a := Z.abs n in
  if a <=? 2 ^ 53 then n
  else
    let e := Z.log2 a - 52 in
    let q := a / 2 ^ e in
    let r := a mod 2 ^ e in
    let half := 2 ^ (e - 1) in
    let q' :=
      if r <? half then q
      else if half <? r then q + 1
           else if Z.even q then q else q + 1 in
    Z.sgn n * (q' * 2 ^ e).

(** [a + b] for two finite doubles [a] and [b] with integer values,
    when the sum is finite (as it is for [a + 1]). *)
Definition js_add (a b : Z) : Z := round_to_double (a + b).

(** A running sum of such numbers: finite, or one of the infinities
    once the rounded sum reaches 2^1024. *)
Inductive JsSum : Type :=
| Finite (n : Z)
| Infinite (negative : bool).

(** [acc + q] for a running sum [acc] and a finite double [q]. *)
Definition js_accumulate (acc : JsSum) (q : Z) : JsSum :=
  match acc with
  | Finite a =>
      let s := js_add a q in
      if 2 ^ 1024 <=? Z.abs s then Infinite (s <? 0) else Finite s
  | Infinite negative => Infinite negative
  end.

Arguments round_to_double : simpl never.
Arguments js_add : simpl never.
Arguments js_accumulate : simpl never.

(** The double with integer value [n], in the standard library's
    specification of binary64, and the library's addition on it. *)
Definition double_of_Z (n : Z) : spec_float :=
  binary_normalize 53 1024 n 0 false.

Definition double_add (x y : spec_float) : spec_float := SFadd 53 1024 x y.

(** [new Error(msg)], as far as a handler can observe it here. *)
Definition js_Error (msg : string) : JsValue :=
  JObject [("name", JString "Error"); ("message", JString msg)].

(* ================================================================= *)
(** ** [String.prototype.trim] *)

Definition isWhiteSpace (c : ascii) : bool :=
  match N_of_ascii c with
  | 9%N | 10%N | 11%N | 12%N | 13%N | 32%N | 160%N => true
  | _ => false
  end.

Fixpoint trimStart (s : string) : string :=
  match s with
  | EmptyString => EmptyString
  | String c rest => if isWhiteSpace c then trimStart rest else s
  end.

Fixpoint trimEnd (s : string) : string :=
  match s with
  | EmptyString => EmptyString
  | String c rest =>
      match trimEnd rest with
      | EmptyString => if isWhiteSpace c then EmptyString else String c EmptyString
      | kept => String c kept
      end
  end.

Definition trim (s : string) : string := trimEnd (trimStart s).

(* ================================================================= *)
(** ** chatStore.ts *)

Module Message.
Inductive Role : Type := user | assistant.

(** [agent?] is [None] when absent; [data?] is [JUndefined] when absent. *)
Record t : Type := mk {
  role : Role;
  content : string;
  agent : option string;
  data : JsValue
}.
End Message.

Module ChatState.
Record t : Type := mk { messages : list Message.t }.
End ChatState.

Definition greeting : Message.t :=
  Message.mk Message.assistant
    "Hi! I'm your AI shopping assistant. How can I help you today?"
    (Some "orchestrator") JUndefined.

Definition initialChatState : ChatState.t := ChatState.mk [greeting].

Definition addMessage (message : Message.t) (state : ChatState.t) : ChatState.t :=
  ChatState.mk (ChatState.messages state ++ [message]).

Definition setMessages (messages : list Message.t) (_ : ChatState.t) : ChatState.t :=
  ChatState.mk messages.

Definition clearMessages (_ : ChatState.t) : ChatState.t :=
  ChatState.mk [greeting].

(** The actions of the chat store, and a run of actions on it. *)
Inductive ChatAction : Type :=
| AddMessage (message : Message.t)
| SetMessages (messages : list Message.t)
| ClearMessages.

Definition chatDispatch (a : ChatAction) : ChatState.t -> ChatState.t :=
  match a with
  | AddMessage m => addMessage m
  | SetMessages ms => setMessages ms
  | ClearMessages => clearMessages
  end.

(** [addMessage] called once for each element of [ms], in order. *)
Definition addMessages (ms : list Message.t) (state : ChatState.t) : ChatState.t :=
  fold_left (fun st m => addMessage m st) ms state.

(* ================================================================= *)
(** ** Products, as the product grid hands them to the stores *)

Module Product.
Record t : Type := mk {
  product_id : Z;
  product_name : string;
  brand_name : string;
  product_type : option string;
  price_from : option Z;
  rating : option Z;
  image_url : option string
}.
End Product.

(* ================================================================= *)
(** ** lookbookStore.ts

    [addToLookbook] stores the product object it is given, so the
    lookbook items are products. *)

Module LookbookState.
Record t : Type := mk { items : list Product.t }.
End LookbookState.

Definition initialLookbookState : LookbookState.t := LookbookState.mk [].

Definition addToLookbook (product : Product.t) (state : LookbookState.t)
  : LookbookState.t :=
  if existsb (fun i => Product.product_id i =? Product.product_id product)
       (LookbookState.items state)
  then state
  else LookbookState.mk (LookbookState.items state ++ [product]).

Definition removeFromLookbook (productId : Z) (state : LookbookState.t)
  : LookbookState.t :=
  LookbookState.mk
    (filter (fun i => negb (Product.product_id i =? productId))
       (LookbookState.items state)).

Definition isInLookbook (productId : Z) (state : LookbookState.t) : bool :=
  existsb (fun i => Product.product_id i =? productId) (LookbookState.items state).

(* ================================================================= *)
(** ** The cart store ([useCartStore]): synchronous actions *)

Module CartItem.
(** [price] is [None] for an item whose price is missing (the type
    requires it, persisted or foreign data may lack it). *)
Record t : Type := mk {
  product_id : Z;
  product_name : string;
  price : option Z;
  quantity : Z;
  image_url : option string;
  brand_name : string
}.

(** [{ ...item, quantity: q }] *)
Definition with_quantity (q : Z) (item : t) : t :=
  mk (product_id item) (product_name item) (price item) q
     (image_url item) (brand_name item).
End CartItem.

Module CartState.
Record t : Type := mk { items : list CartItem.t }.
End CartState.

Definition initialCartState : CartState.t := CartState.mk [].

(** The item [addToCart] appends for a product that is not in the cart. *)
Definition newCartItem (product : Product.t) : CartItem.t :=
  CartItem.mk (Product.product_id product) (Product.product_name product)
    (Some (or_zero (Product.price_from product))) 1 None
    (Product.brand_name product).

Definition addToCart (product : Product.t) (state : CartState.t) : CartState.t :=
  let existing :=
    find (fun item => CartItem.product_id item =? Product.product_id product)
      (CartState.items state) in
  match existing with
  | Some _ =>
      CartState.mk
        (map (fun item =>
                if CartItem.product_id item =? Product.product_id product
                then CartItem.with_quantity (js_add (CartItem.quantity item) 1) item
                else item)
           (CartState.items state))
  | None =>
      CartState.mk (CartState.items state ++ [newCartItem product])
  end.

Definition removeFromCart (productId : Z) (state : CartState.t) : CartState.t :=
  CartState.mk
    (filter (fun item => negb (CartItem.product_id item =? productId))
       (CartState.items state)).

Definition updateQuantity (productId quantity : Z) (state : CartState.t)
  : CartState.t :=
  CartState.mk
    (map (fun item =>
            if CartItem.product_id item =? productId
            then CartItem.with_quantity quantity item
            else item)
       (CartState.items state)).

Definition clearCart (_ : CartState.t) : CartState.t := CartState.mk [].

Definition totalItems (state : CartState.t) : JsSum :=
  fold_left (fun acc item => js_accumulate acc (CartItem.quantity item))
    (CartState.items state) (Finite 0).

(* ================================================================= *)
(** ** authStore.ts *)

Module User.
Record t : Type := mk {
  customer_id : Z;
  email : string;
  first_name : option string;
  last_name : option string
}.
End User.

Module AuthState.
Record t : Type := mk { token : option string; user : option User.t }.
End AuthState.

Definition initialAuthState : AuthState.t := AuthState.mk None None.

Definition login (token : string) (user : User.t) (_ : AuthState.t) : AuthState.t :=
  AuthState.mk (Some token) (Some user).

Definition logout (_ : AuthState.t) : AuthState.t := AuthState.mk None None.

Definition isAuthenticated (state : AuthState.t) : bool :=
  match AuthState.token state with
  | Some t => truthy_string t
  | None => false
  end.

(* ================================================================= *)
(** ** HTTP boundary *)

Module ChatRequest.
Record Context : Type := mkContext {
  cart_items : list CartItem.t;
  page_context : string
}.

(** Body of [POST /api/agent/chat]. *)
Record t : Type := mk {
  message : string;
  customer_id : option Z;
  context : Context
}.
End ChatRequest.

Module ChatReply.
(** [response.data] of a resolved chat call: the JSON object the chat
    endpoint answers with.  [agent_name] and [data] may be missing. *)
Record t : Type := mk {
  response : string;
  agent_name : option string;
  data : JsValue
}.
End ChatReply.

Module LineItem.
Record t : Type := mk { sku_id : Z; quantity : Z; unit_price : Z }.
End LineItem.

Module Address.
Record t : Type := mk { line1 : string; city : string; state : string }.
End Address.

Module OrderRequest.
(** Body of [POST /api/orders]. *)
Record t : Type := mk {
  customer_id : Z;
  line_items : list LineItem.t;
  payment_method : string;
  shipping_address : Address.t
}.
End OrderRequest.

(** One entry of the network log per [axios.post] call. *)
Inductive HttpCall : Type :=
| PostChat (url : string) (body : ChatRequest.t)
| PostOrder (url : string) (body : OrderRequest.t) (authorization : string).

(** How a statement or an awaited promise completes: normally with a
    value (the promise resolves) or abruptly with a thrown value (the
    promise rejects). *)
Inductive completion (A : Type) : Type :=
| Normal (a : A)
| Throw (e : JsValue).
Arguments Normal {A} a.
Arguments Throw {A} e.

(** The backend, as the frontend observes it. *)
Record Server : Type := mkServer {
  chat_api : ChatRequest.t -> completion ChatReply.t;
  orders_api : OrderRequest.t -> string -> completion JsValue
}.

(* ================================================================= *)
(** ** Effects: state that survives a throw

    A store update made before an exception is thrown stays made, so a
    computation returns its completion together with the state. *)

Definition Eff (S A : Type) : Type := S -> completion A * S.

Definition ret {S A : Type} (a : A) : Eff S A := fun s => (Normal a, s).

Definition throw {S A : Type} (e : JsValue) : Eff S A := fun s => (Throw e, s).

Definition bind {S A B : Type} (c : Eff S A) (k : A -> Eff S B) : Eff S B :=
  fun s =>
    match c s with
    | (Normal a, s') => k a s'
    | (Throw e, s') => (Throw e, s')
    end.

Definition get_state {S : Type} : Eff S S := fun s => (Normal s, s).

Definition modify {S : Type} (f : S -> S) : Eff S unit := fun s => (Normal tt, f s).

(** [try { body } catch (error) { handler }] *)
Definition try_catch {S A : Type} (body : Eff S A) (handler : JsValue -> Eff S A)
  : Eff S A :=
  fun s =>
    match body s with
    | (Normal a, s') => (Normal a, s')
    | (Throw e, s') => handler e s'
    end.

(** [try { body } finally { final }]: [final] runs on both exits; a
    throw of [final] replaces the completion of [body]. *)
Definition try_finally {S A : Type} (body : Eff S A) (final : Eff S unit)
  : Eff S A :=
  fun s =>
    match body s with
    | (r, s') =>
        match final s' with
        | (Normal _, s'') => (r, s'')
        | (Throw e, s'') => (Throw e, s'')
        end
    end.

Definition when {S : Type} (b : bool) (c : Eff S unit) : Eff S unit :=
  if b then c else ret tt.

Definition exec {S A : Type} (c : Eff S A) (s : S) : S := snd (c s).
Definition result {S A : Type} (c : Eff S A) (s : S) : completion A := fst (c s).

Declare Scope eff_scope.
Delimit Scope eff_scope with eff.
Notation "x <- c1 ;; c2" := (bind c1 (fun x => c2))
  (at level 61, c1 at next level, right associativity) : eff_scope.
Notation "c1 ;; c2" := (bind c1 (fun _ => c2))
  (at level 61, right associativity) : eff_scope.
Local Open Scope eff_scope.

(* ================================================================= *)
(** ** The page: stores, component state and what it can reach *)

Record World : Type := mkWorld {
  chat : ChatState.t;               (* useChatStore *)
  cart : CartState.t;               (* useCartStore *)
  auth : AuthState.t;               (* useAuthStore *)
  input : string;                   (* useState('') of ChatInterface *)
  isLoading : bool;                 (* useState(false) of ChatInterface *)
  pathname : string;                (* window.location.pathname *)
  selectedProducts : JsValue;       (* state behind onProductsUpdate *)
  network : list HttpCall;          (* requests sent so far *)
  console : list (string * JsValue) (* console.error lines so far *)
}.

Definition with_chat (f : ChatState.t -> ChatState.t) (w : World) : World :=
  mkWorld (f (chat w)) (cart w) (auth w) (input w) (isLoading w) (pathname w)
    (selectedProducts w) (network w) (console w).

Definition with_cart (f : CartState.t -> CartState.t) (w : World) : World :=
  mkWorld (chat w) (f (cart w)) (auth w) (input w) (isLoading w) (pathname w)
    (selectedProducts w) (network w) (console w).

Definition setInput (s : string) (w : World) : World :=
  mkWorld (chat w) (cart w) (auth w) s (isLoading w) (pathname w)
    (selectedProducts w) (network w) (console w).

Definition setIsLoading (b : bool) (w : World) : World :=
  mkWorld (chat w) (cart w) (auth w) (input w) b (pathname w)
    (selectedProducts w) (network w) (console w).

Definition setSelectedProducts (products : JsValue) (w : World) : World :=
  mkWorld (chat w) (cart w) (auth w) (input w) (isLoading w) (pathname w)
    products (network w) (console w).

Definition log_call (c : HttpCall) (w : World) : World :=
  mkWorld (chat w) (cart w) (auth w) (input w) (isLoading w) (pathname w)
    (selectedProducts w) (network w ++ [c]) (console w).

Definition console_error (label : string) (v : JsValue) (w : World) : World :=
  mkWorld (chat w) (cart w) (auth w) (input w) (isLoading w) (pathname w)
    (selectedProducts w) (network w) (console w ++ [(label, v)]).

Definition chat_url : string := "http://localhost:8000/api/agent/chat".
Definition orders_url : string := "http://localhost:8000/api/orders".

Definition error_text : string := "Sorry, I encountered an error. Please try again.".

Section Frontend.

Variable server : Server.

(** [await axios.post(chat_url, body)], giving [response.data]. *)
Definition post_chat (body : ChatRequest.t) : Eff World ChatReply.t :=
  fun w => (chat_api server body, log_call (PostChat chat_url body) w).

(** [await axios.post(orders_url, payload, { headers: { Authorization } })],
    giving [response.data]. *)
Definition post_order (payload : OrderRequest.t) (authorization : string)
  : Eff World JsValue :=
  fun w => (orders_api server payload authorization,
            log_call (PostOrder orders_url payload authorization) w).

(** The line item [checkout] submits for a cart item. *)
Definition line_item_of (item : CartItem.t) : LineItem.t :=
  LineItem.mk (CartItem.product_id item) (CartItem.quantity item)
    (or_zero (CartItem.price item)).

(** The [payload] of [checkout]. *)
Definition order_payload (customerId : Z) (items : list CartItem.t)
  : OrderRequest.t :=
  let line_items := map line_item_of items in
  OrderRequest.mk customerId line_items "Credit Card"
    (Address.mk "123 Main St" "New York" "NY").

Definition checkout (customerId : Z) (token : string) : Eff World JsValue :=
  w <- get_state ;;
  let items := CartState.items (cart w) in
  if Z.of_nat (List.length items) =? 0 then throw (js_Error "Cart is empty")
  else
    let payload := order_payload customerId items in
    data <- post_order payload ("Bearer " ++ token)%string ;;
    modify (with_cart (fun _ => CartState.mk [])) ;;
    ret data.

(** [handleSend] of the chat component.  [onProductsUpdate] tells
    whether the optional callback prop was passed.  [input], [items]
    and [user] are the values the component rendered with. *)
Definition handleSend (onProductsUpdate : bool) : Eff World unit :=
  w <- get_state ;;
  let input := input w in
  let items := CartState.items (cart w) in
  let user := AuthState.user (auth w) in
  if negb (truthy_string (trim input)) || isLoading w then ret tt
  else
    let userMessage := Message.mk Message.user input None JUndefined in
    modify (with_chat (addMessage userMessage)) ;;
    modify (setInput "") ;;
    modify (setIsLoading true) ;;
    try_finally
      (try_catch
         (reply <- post_chat
                     (ChatRequest.mk input (option_map User.customer_id user)
                        (ChatRequest.mkContext items (pathname w))) ;;
          let assistantMessage :=
            Message.mk Message.assistant (ChatReply.response reply)
              (ChatReply.agent_name reply) (ChatReply.data reply) in
          modify (with_chat (addMessage assistantMessage)) ;;
          when (truthy (opt_chain (ChatReply.data reply) "clear_cart"))
            (modify (with_cart clearCart)) ;;
          when (truthy (opt_chain (ChatReply.data reply) "products")
                && onProductsUpdate)
            (modify (setSelectedProducts
                       (opt_chain (ChatReply.data reply) "products"))))
         (fun error =>
            modify (console_error "Failed to send message:" error) ;;
            modify (with_chat
                      (addMessage
                         (Message.mk Message.assistant error_text
                            (Some "error") JUndefined)))))
      (modify (setIsLoading false)).

End Frontend.

(** The request [handleSend] builds from what the component rendered with. *)
Definition chat_request (w : World) : ChatRequest.t :=
  ChatRequest.mk (input w)
    (option_map User.customer_id (AuthState.user (auth w)))
    (ChatRequest.mkContext (CartState.items (cart w)) (pathname w)).

(** The guard of [handleSend] lets the call through. *)
Definition sendable (w : World) : bool :=
  truthy_string (trim (input w)) && negb (isLoading w).


(* ================================================================= *)
(** ** Auxiliary definitions for the statements below *)

(** The function [addToCart] maps over the cart when the product with
    id [pid] is already there. *)
Definition bump_quantity (pid : Z) (item : CartItem.t) : CartItem.t :=
  if CartItem.product_id item =? pid
  then CartItem.with_quantity (js_add (CartItem.quantity item) 1) item
  else item.

(** The two messages of a failed exchange. *)
Definition user_message (text : string) : Message.t :=
  Message.mk Message.user text None JUndefined.

Definition error_message : Message.t :=
  Message.mk Message.assistant error_text (Some "error") JUndefined.

(** What the customer can see of the page: everything but the console
    and the network log. *)
Definition visible (w : World)
  : ChatState.t * CartState.t * string * bool * JsValue :=
  (chat w, cart w, input w, isLoading w, selectedProducts w).

(** A backend that is down: every call rejects with [reason]. *)
Definition unreachable_server (reason : JsValue) : Server :=
  mkServer (fun _ => Throw reason) (fun _ _ => Throw reason).

(** A backend that answers every chat call with [reply] and accepts
    every order. *)
Definition constant_server (reply : ChatReply.t) : Server :=
  mkServer (fun _ => Normal reply) (fun _ _ => Normal (JObject [])).

(** The page just before the request leaves. *)
Definition awaiting (w : World) : World :=
  log_call (PostChat chat_url (chat_request w))
    (setIsLoading true
       (setInput EmptyString (with_chat (addMessage (user_message (input w))) w))).

(** The page after a reply was handled. *)
Definition replied (onProductsUpdate : bool) (reply : ChatReply.t) (w1 : World)
  : World :=
  let data := ChatReply.data reply in
  let w2 :=
    with_chat
      (addMessage
         (Message.mk Message.assistant (ChatReply.response reply)
            (ChatReply.agent_name reply) data)) w1 in
  let w3 := if truthy (opt_chain data "clear_cart")
            then with_cart clearCart w2 else w2 in
  let w4 := if truthy (opt_chain data "products") && onProductsUpdate
            then setSelectedProducts (opt_chain data "products") w3 else w3 in
  setIsLoading false w4.

(** The page after a rejection was handled. *)
Definition failed (e : JsValue) (w1 : World) : World :=
  setIsLoading false
    (with_chat (addMessage error_message)
       (console_error "Failed to send message:" e w1)).

Definition sample_product : Product.t :=
  Product.mk 7 "Linen shirt" "Acme" None (Some 2999) None None.

Definition sample_cart : CartState.t :=
  CartState.mk [CartItem.mk 7 "Linen shirt" (Some 2999) 2 None "Acme";
                CartItem.mk 9 "Wool scarf" None 1 None "Acme"].

(** A cart whose one item has the quantity 2^53. *)
Definition saturated_cart : CartState.t :=
  CartState.mk [CartItem.mk 7 "Linen shirt" (Some 2999) (2 ^ 53) None "Acme"].

Definition sample_lookbook : LookbookState.t :=
  LookbookState.mk [sample_product].


Definition sample_user : User.t := User.mk 42 "ada@example.com" (Some "Ada") None.

(** A page on which the customer typed [text] and nothing is in flight. *)
Definition page_with_input (text : string) : World :=
  mkWorld initialChatState sample_cart
    (AuthState.mk (Some "tok") (Some sample_user))
    text false "/" (JArray []) [] [].

Definition network_down : JsValue := js_Error "Network Error".

Definition clearing_reply : ChatReply.t :=
  ChatReply.mk "Your order is placed." (Some "checkout")
    (JObject [("clear_cart", JBool true)]).


(* ================================================================= *)
(** ** ChatInterface.tsx: the effect run once on mount *)

(** [messages[messages.length - 1]]: [undefined] on an empty array. *)
Definition lastMessage (messages : list Message.t) : option Message.t :=
  match messages with
  | [] => None
  | _ :: _ => nth_error messages (List.length messages - 1)
  end.

(** [lastMessage?.data?.products] *)
Definition lastProducts (w : World) : JsValue :=
  match lastMessage (ChatState.messages (chat w)) with
  | Some m => opt_chain (Message.data m) "products"
  | None => JUndefined
  end.

(** Restore products from the last message. *)
Definition restoreProducts (onProductsUpdate : bool) (w : World) : World :=
  if truthy (lastProducts w) && onProductsUpdate
  then setSelectedProducts (lastProducts w) w
  else w.

(* ================================================================= *)
(** ** ProductGrid.tsx: the heart button *)

(** [onClick] of the heart button of a product card. *)
Definition onHeartClick (product : Product.t) (state : LookbookState.t)
  : LookbookState.t :=
  if isInLookbook (Product.product_id product) state
  then removeFromLookbook (Product.product_id product) state
  else addToLookbook product state.

(* ================================================================= *)
(** ** AuthGuard.tsx *)

Definition PUBLIC_PATHS : list string := ["/login"; "/register"].

(** [paths.includes(pathname)] *)
Definition includes (paths : list string) (pathname : string) : bool :=
  existsb (fun p => String.eqb p pathname) paths.

(** ToBoolean of [user], an object or [null]. *)
Definition signed_in (user : option User.t) : bool :=
  match user with
  | Some _ => true
  | None => false
  end.

(** The [router.push] calls of the guarding effect, in order. *)
Definition AuthGuard_pushes (mounted : bool) (user : option User.t)
    (pathname : string) : list string :=
  if negb mounted then []
  else
    (if negb (signed_in user) && negb (includes PUBLIC_PATHS pathname)
     then ["/login"] else [])
    ++ (if signed_in user && includes PUBLIC_PATHS pathname
        then ["/"] else []).

(** Whether the guard renders its children ([false]: it returns [null]). *)
Definition AuthGuard_renders (mounted : bool) (user : option User.t)
    (pathname : string) : bool :=
  if negb mounted then false
  else if negb (signed_in user) && negb (includes PUBLIC_PATHS pathname)
       then false
       else true.

(* ================================================================= *)
(** ** Header.tsx: the name in the greeting *)

(** [s.split('@')[0]]: the part of [s] before its first ['@'], all of
    [s] when it has none. *)
Fixpoint before_at (s : string) : string :=
  match s with
  | EmptyString => EmptyString
  | String c rest =>
      if Ascii.eqb c "@"%char then EmptyString else String c (before_at rest)
  end.

(** [user.first_name || user.email.split('@')[0]] *)
Definition headerName (user : User.t) : string :=
  match User.first_name user with
  | Some name => if truthy_string name then name else before_at (User.email user)
  | None => before_at (User.email user)
  end.

(* ================================================================= *)
(** ** The cart page: [handleCheckout] *)

Record CartPage : Type := mkCartPage {
  world : World;
  loading : bool;          (* useState(false) of CartPage *)
  pushed : list string;    (* router.push targets so far *)
  alerts : list string     (* alert texts so far *)
}.

Definition with_world (f : World -> World) (p : CartPage) : CartPage :=
  mkCartPage (f (world p)) (loading p) (pushed p) (alerts p).

Definition setLoading (b : bool) (p : CartPage) : CartPage :=
  mkCartPage (world p) b (pushed p) (alerts p).

Definition router_push (target : string) (p : CartPage) : CartPage :=
  mkCartPage (world p) (loading p) (pushed p ++ [target]) (alerts p).

Definition alert (text : string) (p : CartPage) : CartPage :=
  mkCartPage (world p) (loading p) (pushed p) (alerts p ++ [text]).

(** A store action run from the page. *)
Definition in_world {A : Type} (c : Eff World A) : Eff CartPage A :=
  fun p =>
    match c (world p) with
    | (r, w') => (r, with_world (fun _ => w') p)
    end.

Definition checkout_failed_text : string := "Checkout failed. Please try again.".

(** [handleCheckout] of the cart page; [user] and [token] are read from
    the auth store. *)
Definition handleCheckout (server : Server) : Eff CartPage unit :=
  p <- get_state ;;
  let user := AuthState.user (auth (world p)) in
  let token := AuthState.token (auth (world p)) in
  match user, token with
  | Some u, Some t =>
      if negb (truthy_string t) then modify (router_push "/login")
      else
        modify (setLoading true) ;;
        try_finally
          (try_catch
             (_ <- in_world (checkout server (User.customer_id u) t) ;;
              modify (router_push "/orders"))
             (fun err =>
                modify (with_world (console_error "Checkout failed" err)) ;;
                modify (alert checkout_failed_text)))
          (modify (setLoading false))
  | _, _ => modify (router_push "/login")
  end.

(* ================================================================= *)
(** ** Further auxiliary definitions *)

(** Every character of [s] is white space. *)
Fixpoint blank (s : string) : bool :=
  match s with
  | EmptyString => true
  | String c rest => isWhiteSpace c && blank rest
  end.

(** Sum of the quantities, written by recursion on the cart. *)
Fixpoint sum_quantities (items : list CartItem.t) : Z :=
  match items with
  | [] => 0
  | item :: rest => CartItem.quantity item + sum_quantities rest
  end.

Definition fresh_cart_page (w : World) : CartPage := mkCartPage w false [] [].

Definition guest_world : World :=
  mkWorld initialChatState sample_cart initialAuthState
    EmptyString false "/cart" (JArray []) [] [].

Definition products_reply : ChatReply.t :=
  ChatReply.mk "Here are some dresses." (Some "search")
    (JObject [("products", JArray [JObject [("product_id", JNumber 7)]])]).

(* ================================================================= *)
(** * Properties *)

(* ================================================================= *)
(** ** The model on concrete inputs *)

Example trim_inner_space_kept : trim "  blue dress  " = "blue dress".
Proof. reflexivity. Qed.

Example trim_blank_is_empty : trim "   " = EmptyString.
Proof. reflexivity. Qed.

Example truthy_of_string_false : truthy (JString "false") = true.
Proof. reflexivity. Qed.

Example opt_chain_on_null : opt_chain JNull "clear_cart" = JUndefined.
Proof. reflexivity. Qed.

Example addToCart_twice_counts :
  CartState.items (addToCart sample_product (addToCart sample_product initialCartState))
  = [CartItem.mk 7 "Linen shirt" (Some 2999) 2 None "Acme"].
Proof. reflexivity. Qed.

Example checkout_empty_cart_throws :
  checkout (constant_server clearing_reply) 42 "tok"
    (with_cart clearCart (page_with_input ""))
  = (Throw (js_Error "Cart is empty"), with_cart clearCart (page_with_input "")).
Proof. reflexivity. Qed.

Example handleSend_while_loading_does_nothing :
  exec (handleSend (constant_server clearing_reply) true)
    (setIsLoading true (page_with_input "hello"))
  = setIsLoading true (page_with_input "hello").
Proof. reflexivity. Qed.

(* ================================================================= *)
(** ** Numbers *)

(** [js_add] against the standard library's binary64 addition, at and
    around the places where doubles stop holding every integer. *)
Example js_add_agrees_with_binary64 :
  Forall
    (fun ab : Z * Z =>
       double_add (double_of_Z (fst ab)) (double_of_Z (snd ab))
       = double_of_Z (js_add (fst ab) (snd ab)))
    [(0, 1); (1, 1); (-1, 1); (41, 1); (-5, 5);
     (2 ^ 53 - 1, 1); (2 ^ 53, 1); (2 ^ 53 + 2, 1); (2 ^ 53 + 4, 1);
     (- 2 ^ 53, 1); (- 2 ^ 53 - 2, 1); (- 2 ^ 54, 1);
     (2 ^ 54, 2); (2 ^ 54, 3); (2 ^ 60, 1); (2 ^ 1023, 1);
     (2 ^ 53, 2 ^ 53 - 1); (3 * 2 ^ 52, 3 * 2 ^ 52 + 1)].
Proof. repeat constructor. Qed.

Example js_add_stuck_at_2_53 : js_add (2 ^ 53) 1 = 2 ^ 53.
Proof. reflexivity. Qed.

Example js_accumulate_overflows :
  js_accumulate (Finite (2 ^ 1023)) (2 ^ 1023) = Infinite false
  /\ double_add (double_of_Z (2 ^ 1023)) (double_of_Z (2 ^ 1023))
     = S754_infinity false.
Proof. split; reflexivity. Qed.

Lemma round_to_double_exact (n : Z) :
  - 2 ^ 53 <= n <= 2 ^ 53 -> round_to_double n = n.
Proof.
  intros H. unfold round_to_double. cbv zeta.
  destruct (Z.leb_spec (Z.abs n) (2 ^ 53)) as [_ | Hgt]; [reflexivity |].
  lia.
Qed.

Lemma js_add_exact (a b : Z) :
  - 2 ^ 53 <= a + b <= 2 ^ 53 -> js_add a b = a + b.
Proof. intros H. unfold js_add. now apply round_to_double_exact. Qed.

Lemma js_accumulate_exact (a q : Z) :
  - 2 ^ 53 <= a + q <= 2 ^ 53 -> js_accumulate (Finite a) q = Finite (a + q).
Proof.
  intros H. unfold js_accumulate. cbv zeta. rewrite js_add_exact by exact H.
  destruct (Z.leb_spec (2 ^ 1024) (Z.abs (a + q))) as [Hbig | _];
    [| reflexivity].
  assert (Hlt : 2 ^ 53 < 2 ^ 1024) by reflexivity.
  lia.
Qed.

(* ================================================================= *)
(** ** Chat store *)

Lemma addMessages_messages (ms : list Message.t) (st : ChatState.t) :
  ChatState.messages (addMessages ms st) = ChatState.messages st ++ ms.
Proof.
  unfold addMessages. revert st.
  induction ms as [| m ms IH]; intros st; simpl.
  - now rewrite app_nil_r.
  - rewrite IH. simpl. now rewrite <- app_assoc.
Qed.

(** C1, as stated, fails: no bound on the length of [messages] is
    respected by [addMessage]; whatever window size is proposed, that
    many calls plus one on the initial store exceed it. *)
Lemma chat_window_has_no_bound :
  ~ exists bound : nat,
      forall ms : list Message.t,
        (List.length (ChatState.messages (addMessages ms initialChatState))
         <= bound)%nat.
Proof.
  intros [bound H].
  specialize (H (repeat greeting (S bound))).
  rewrite addMessages_messages, length_app, repeat_length in H.
  simpl in H. lia.
Qed.

(** C1, amended: the chat store keeps the whole conversation.  After
    any number of [addMessage] calls the message list is the previous
    list followed by the added messages in call order, so its length is
    the previous length plus the number of calls and the oldest
    messages are all still there. *)
Theorem addMessage_keeps_whole_history :
  forall (ms : list Message.t) (st : ChatState.t),
    ChatState.messages (addMessages ms st) = ChatState.messages st ++ ms
    /\ List.length (ChatState.messages (addMessages ms st))
       = (List.length (ChatState.messages st) + List.length ms)%nat
    /\ firstn (List.length (ChatState.messages st))
         (ChatState.messages (addMessages ms st))
       = ChatState.messages st.
Proof.
  intros ms st. rewrite addMessages_messages. repeat split.
  - apply length_app.
  - rewrite firstn_app, Nat.sub_diag, firstn_all. simpl. apply app_nil_r.
Qed.

(** C6, as stated, fails: [clearMessages] is an operation of the chat
    store, and it removes a stored customer message. *)
Lemma clearMessages_deletes_history :
  ~ forall (a : ChatAction) (st : ChatState.t),
      exists added : list Message.t,
        ChatState.messages (chatDispatch a st) = ChatState.messages st ++ added.
Proof.
  intros H.
  destruct (H ClearMessages
              (addMessage (Message.mk Message.user "hello" None JUndefined)
                 initialChatState)) as [added E].
  apply (f_equal (@List.length Message.t)) in E.
  simpl in E. lia.
Qed.

(** C6, amended: [addMessage] is append-only: every message stored
    before the call is still stored afterwards at the same position and
    unchanged, and exactly the new message is added at the end.  The two
    other operations of the store replace the history: [setMessages] by
    the list it is given, [clearMessages] by the single greeting. *)
Theorem addMessage_append_only :
  forall (m : Message.t) (st : ChatState.t),
    ChatState.messages (chatDispatch (AddMessage m) st)
    = ChatState.messages st ++ [m]
    /\ (forall (i : nat) (old : Message.t),
          nth_error (ChatState.messages st) i = Some old ->
          nth_error (ChatState.messages (chatDispatch (AddMessage m) st)) i
          = Some old)
    /\ (forall ms : list Message.t,
          ChatState.messages (chatDispatch (SetMessages ms) st) = ms)
    /\ ChatState.messages (chatDispatch ClearMessages st) = [greeting].
Proof.
  intros m st. simpl. repeat split; try reflexivity.
  intros i old Hi.
  rewrite nth_error_app1; [exact Hi |].
  apply nth_error_Some. congruence.
Qed.

Lemma addMessage_append_only_witness :
  nth_error (ChatState.messages initialChatState) 0 = Some greeting
  /\ nth_error
       (ChatState.messages
          (chatDispatch
             (AddMessage (Message.mk Message.user "hello" None JUndefined))
             initialChatState)) 0
     = Some greeting.
Proof.
  split; [reflexivity |].
  apply (proj1 (proj2 (addMessage_append_only
                         (Message.mk Message.user "hello" None JUndefined)
                         initialChatState)) 0%nat greeting).
  reflexivity.
Defined.

(* ================================================================= *)
(** ** Cart store: [addToCart] *)

Lemma NoDup_snoc (a : Z) (l : list Z) :
  NoDup l -> ~ In a l -> NoDup (l ++ [a]).
Proof.
  induction l as [| x l IH]; simpl; intros Hnd Hin.
  - constructor; [tauto | constructor].
  - inversion Hnd as [| ? ? Hx Hl]; subst.
    constructor.
    + rewrite in_app_iff. simpl. intros [H | [H | []]]; [tauto | subst; tauto].
    + apply IH; tauto.
Qed.

Section CartIds.

Variable pid : Z.

Lemma find_id_none (l : list CartItem.t) :
  find (fun item => CartItem.product_id item =? pid) l = None
  <-> ~ In pid (map CartItem.product_id l).
Proof.
  induction l as [| x l IH]; simpl.
  - tauto.
  - destruct (Z.eqb_spec (CartItem.product_id x) pid) as [E | E].
    + split; [discriminate | intros H; exfalso; apply H; now left].
    + rewrite IH. tauto.
Qed.

Lemma bump_absent (l : list CartItem.t) :
  ~ In pid (map CartItem.product_id l) -> map (bump_quantity pid) l = l.
Proof.
  induction l as [| x l IH]; simpl; intros H; [reflexivity |].
  rewrite IH by tauto. unfold bump_quantity.
  destruct (Z.eqb_spec (CartItem.product_id x) pid); [tauto | reflexivity].
Qed.

Lemma bump_keeps_ids (l : list CartItem.t) :
  map CartItem.product_id (map (bump_quantity pid) l) = map CartItem.product_id l.
Proof.
  induction l as [| x l IH]; simpl; [reflexivity |].
  rewrite IH. unfold bump_quantity.
  now destruct (CartItem.product_id x =? pid).
Qed.

(** With distinct ids, [map (bump_quantity pid)] touches the item
    carrying [pid] alone. *)
Lemma bump_at (before after : list CartItem.t) (item : CartItem.t) :
  NoDup (map CartItem.product_id (before ++ item :: after)) ->
  CartItem.product_id item = pid ->
  map (bump_quantity pid) (before ++ item :: after)
  = before
    ++ CartItem.with_quantity (js_add (CartItem.quantity item) 1) item :: after.
Proof.
  intros Hnd Eid.
  rewrite map_app in Hnd. simpl in Hnd.
  assert (Hbefore : ~ In pid (map CartItem.product_id before)).
  { intros Hin. apply NoDup_remove_2 in Hnd. apply Hnd.
    rewrite in_app_iff. left. now rewrite Eid. }
  assert (Hafter : ~ In pid (map CartItem.product_id after)).
  { intros Hin. apply NoDup_remove_2 in Hnd. apply Hnd.
    rewrite in_app_iff. right. now rewrite Eid. }
  rewrite map_app. simpl.
  rewrite (bump_absent before Hbefore), (bump_absent after Hafter).
  unfold bump_quantity at 1. now rewrite (proj2 (Z.eqb_eq _ _) Eid).
Qed.

End CartIds.

(** C9, as stated, fails: in a cart with distinct ids whose item has the
    quantity 2^53, [addToCart] of that product leaves the quantity at
    2^53, since 2^53 + 1 is not a double and the sum rounds back; the
    cart is exactly as before. *)
Lemma addToCart_quantity_stuck :
  NoDup (map CartItem.product_id (CartState.items saturated_cart))
  /\ In (Product.product_id sample_product)
        (map CartItem.product_id (CartState.items saturated_cart))
  /\ map CartItem.quantity
       (CartState.items (addToCart sample_product saturated_cart))
     = [2 ^ 53]
  /\ map CartItem.quantity
       (CartState.items (addToCart sample_product saturated_cart))
     <> [2 ^ 53 + 1].
Proof.
  split; [| split; [| split]].
  - simpl. repeat constructor. simpl. tauto.
  - simpl. now left.
  - reflexivity.
  - discriminate.
Qed.

(** C9, amended: on a cart with pairwise distinct product ids,
    [addToCart] of a product already in the cart replaces the item with
    that id by an item with the same id, name, price, image and brand
    whose quantity is the old quantity plus 1 rounded to a double, which
    is exactly one more when the old quantity is an integer from -2^53
    up to and not including 2^53, and leaves every other item where and
    as it was; [addToCart] of a product not in the cart appends one item
    with that id and quantity 1; either way the product ids of the cart
    stay pairwise distinct. *)
Theorem addToCart_keeps_ids_distinct :
  forall (product : Product.t) (st : CartState.t),
    NoDup (map CartItem.product_id (CartState.items st)) ->
    (forall before item after,
       CartState.items st = before ++ item :: after ->
       CartItem.product_id item = Product.product_id product ->
       exists item',
         CartState.items (addToCart product st) = before ++ item' :: after
         /\ CartItem.product_id item' = CartItem.product_id item
         /\ CartItem.product_name item' = CartItem.product_name item
         /\ CartItem.price item' = CartItem.price item
         /\ CartItem.image_url item' = CartItem.image_url item
         /\ CartItem.brand_name item' = CartItem.brand_name item
         /\ CartItem.quantity item' = round_to_double (CartItem.quantity item + 1)
         /\ (- 2 ^ 53 <= CartItem.quantity item < 2 ^ 53 ->
             CartItem.quantity item' = CartItem.quantity item + 1))
    /\ (~ In (Product.product_id product)
            (map CartItem.product_id (CartState.items st)) ->
        exists item,
          CartState.items (addToCart product st) = CartState.items st ++ [item]
          /\ CartItem.product_id item = Product.product_id product
          /\ CartItem.quantity item = 1)
    /\ NoDup (map CartItem.product_id (CartState.items (addToCart product st))).
Proof.
  intros product st Hnd.
  split; [| split].
  - intros before item after Est Eid.
    assert (Hin : In (Product.product_id product)
                     (map CartItem.product_id (CartState.items st))).
    { rewrite Est, map_app, in_app_iff. right. now left. }
    unfold addToCart.
    destruct (find _ (CartState.items st)) as [existing |] eqn:Hfind.
    + exists (CartItem.with_quantity (js_add (CartItem.quantity item) 1) item).
      cbn [CartState.items].
      split.
      * pose proof (bump_at (Product.product_id product) before after item)
          as Hmap.
        unfold bump_quantity in Hmap. rewrite Est.
        apply Hmap; [now rewrite <- Est | exact Eid].
      * repeat split.
        intros Hq. simpl. apply js_add_exact. lia.
    + apply find_id_none in Hfind. contradiction.
  - intros Hout. unfold addToCart.
    rewrite (proj2 (find_id_none _ _) Hout). cbn [CartState.items].
    exists (newCartItem product). now repeat split.
  - unfold addToCart.
    destruct (find _ (CartState.items st)) as [existing |] eqn:Hfind.
    + cbn [CartState.items].
      pose proof (bump_keeps_ids (Product.product_id product)
                    (CartState.items st)) as Hids.
      unfold bump_quantity in Hids. now rewrite Hids.
    + apply find_id_none in Hfind. cbn [CartState.items].
      rewrite map_app. simpl. now apply NoDup_snoc.
Qed.

Lemma addToCart_keeps_ids_distinct_witness :
  NoDup (map CartItem.product_id (CartState.items sample_cart))
  /\ exists item',
       CartState.items (addToCart sample_product sample_cart)
       = [item'; CartItem.mk 9 "Wool scarf" None 1 None "Acme"]
       /\ CartItem.product_id item' = 7
       /\ CartItem.quantity item' = 3.
Proof.
  assert (H : NoDup (map CartItem.product_id (CartState.items sample_cart))).
  { simpl. repeat constructor; simpl; intuition discriminate. }
  split; [exact H |].
  destruct (proj1 (addToCart_keeps_ids_distinct sample_product sample_cart H)
              [] (CartItem.mk 7 "Linen shirt" (Some 2999) 2 None "Acme")
              [CartItem.mk 9 "Wool scarf" None 1 None "Acme"]
              eq_refl eq_refl)
    as (item' & Hitems & Hid & _ & _ & _ & _ & _ & Hq).
  exists item'. split; [exact Hitems | split; [exact Hid |]].
  apply Hq. simpl. split; [discriminate | reflexivity].
Defined.

(* ================================================================= *)
(** ** Lookbook store *)

Lemma existsb_id_true (pid : Z) (l : list Product.t) :
  existsb (fun i => Product.product_id i =? pid) l = true
  <-> In pid (map Product.product_id l).
Proof.
  induction l as [| x l IH]; simpl.
  - split; [discriminate | tauto].
  - rewrite orb_true_iff, IH, Z.eqb_eq. tauto.
Qed.

(** C10: [addToLookbook] of a product whose id is already in the
    lookbook returns the state unchanged, adding twice is the same as
    adding once, a lookbook with pairwise distinct product ids keeps
    them distinct, and after the call [isInLookbook] of the product's id
    is true. *)
Theorem addToLookbook_idempotent :
  forall (product : Product.t) (st : LookbookState.t),
    (In (Product.product_id product)
        (map Product.product_id (LookbookState.items st)) ->
     addToLookbook product st = st)
    /\ addToLookbook product (addToLookbook product st)
       = addToLookbook product st
    /\ (NoDup (map Product.product_id (LookbookState.items st)) ->
        NoDup (map Product.product_id
                 (LookbookState.items (addToLookbook product st))))
    /\ isInLookbook (Product.product_id product) (addToLookbook product st)
       = true.
Proof.
  intros product st.
  assert (Hin : isInLookbook (Product.product_id product)
                  (addToLookbook product st) = true).
  { unfold isInLookbook, addToLookbook.
    destruct (existsb _ (LookbookState.items st)) eqn:E; [exact E |].
    simpl. rewrite existsb_app. simpl.
    now rewrite Z.eqb_refl, orb_true_r. }
  assert (Hfix : forall s,
             In (Product.product_id product)
                (map Product.product_id (LookbookState.items s)) ->
             addToLookbook product s = s).
  { intros s H. apply existsb_id_true in H.
    unfold addToLookbook. now rewrite H. }
  repeat split.
  - apply Hfix.
  - apply Hfix. apply existsb_id_true. exact Hin.
  - intros Hnd. unfold addToLookbook.
    destruct (existsb _ (LookbookState.items st)) eqn:E; [exact Hnd |].
    simpl. rewrite map_app. simpl. apply NoDup_snoc; [exact Hnd |].
    rewrite <- existsb_id_true. congruence.
  - exact Hin.
Qed.

Lemma addToLookbook_idempotent_witness :
  In (Product.product_id sample_product)
     (map Product.product_id (LookbookState.items sample_lookbook))
  /\ addToLookbook sample_product sample_lookbook = sample_lookbook.
Proof.
  assert (H : In (Product.product_id sample_product)
                 (map Product.product_id (LookbookState.items sample_lookbook))).
  { simpl. left. reflexivity. }
  split; [exact H |].
  exact (proj1 (addToLookbook_idempotent sample_product sample_lookbook) H).
Defined.

(* ================================================================= *)
(** ** Cart store: [checkout] *)

Lemma or_zero_default (x : option Z) :
  or_zero x = match x with Some p => p | None => 0 end.
Proof.
  destruct x as [p |]; simpl; [| reflexivity].
  destruct (Z.eqb_spec p 0); congruence.
Qed.

Lemma length_zero_test {A : Type} (l : list A) :
  (Z.of_nat (List.length l) =? 0) = match l with [] => true | _ => false end.
Proof. destruct l; reflexivity. Qed.

(** One run of [checkout], by cases on the cart and on the answer of
    the orders endpoint. *)
Lemma checkout_run (server : Server) (customerId : Z) (token : string) (w : World) :
  checkout server customerId token w
  = match CartState.items (cart w) with
    | [] => (Throw (js_Error "Cart is empty"), w)
    | _ :: _ =>
        let payload := order_payload customerId (CartState.items (cart w)) in
        let auth := ("Bearer " ++ token)%string in
        let w1 := log_call (PostOrder orders_url payload auth) w in
        match orders_api server payload auth with
        | Normal data => (Normal data, with_cart (fun _ => CartState.mk []) w1)
        | Throw e => (Throw e, w1)
        end
    end.
Proof.
  unfold checkout, bind, get_state.
  rewrite length_zero_test.
  destruct (CartState.items (cart w)) as [| item rest]; [reflexivity |].
  unfold post_order, modify, ret. cbv zeta.
  now destruct (orders_api server _ _).
Qed.

(** C5: for a non-empty cart, [checkout] sends one order request whose
    line items correspond one to one, in order, to the cart items: the
    [sku_id] is the item's [product_id], the [quantity] is the item's
    quantity, and the [unit_price] is the item's price, or 0 when the
    item has no price. *)
Theorem checkout_line_items_identity :
  forall (server : Server) (customerId : Z) (token : string) (w : World),
    CartState.items (cart w) <> [] ->
    exists payload authorization,
      network (exec (checkout server customerId token) w)
      = network w ++ [PostOrder orders_url payload authorization]
      /\ Forall2
           (fun item li =>
              LineItem.sku_id li = CartItem.product_id item
              /\ LineItem.quantity li = CartItem.quantity item
              /\ LineItem.unit_price li
                 = match CartItem.price item with Some p => p | None => 0 end)
           (CartState.items (cart w)) (OrderRequest.line_items payload).
Proof.
  intros server customerId token w Hne.
  exists (order_payload customerId (CartState.items (cart w))),
         ("Bearer " ++ token)%string.
  split.
  - unfold exec. rewrite checkout_run.
    destruct (CartState.items (cart w)) as [| item rest] eqn:E; [congruence |].
    cbv zeta. now destruct (orders_api server _ _).
  - simpl. clear Hne.
    induction (CartState.items (cart w)) as [| item rest IH]; simpl;
      constructor; [| exact IH].
    simpl. now rewrite or_zero_default.
Qed.

Lemma checkout_line_items_identity_witness :
  CartState.items (cart (page_with_input "")) <> []
  /\ exists payload authorization,
       network (exec (checkout (unreachable_server network_down) 42 "tok")
                  (page_with_input ""))
       = network (page_with_input "")
         ++ [PostOrder orders_url payload authorization]
       /\ Forall2
            (fun item li =>
               LineItem.sku_id li = CartItem.product_id item
               /\ LineItem.quantity li = CartItem.quantity item
               /\ LineItem.unit_price li
                  = match CartItem.price item with Some p => p | None => 0 end)
            (CartState.items (cart (page_with_input "")))
            (OrderRequest.line_items payload).
Proof.
  assert (H : CartState.items (cart (page_with_input "")) <> [])
    by (simpl; discriminate).
  split; [exact H |].
  exact (checkout_line_items_identity (unreachable_server network_down) 42 "tok"
           (page_with_input "") H).
Defined.

(** C8: [checkout] on an empty cart throws an error with message
    'Cart is empty', sends nothing and leaves the cart as it is; when
    the order request is rejected the rejection reaches the caller and
    the cart is as before; when the request resolves the caller gets the
    response data and the cart is empty.  So the cart changes only on a
    resolved request. *)
Theorem checkout_atomic :
  forall (server : Server) (customerId : Z) (token : string) (w : World),
    let run := checkout server customerId token in
    (CartState.items (cart w) = [] ->
     result run w = Throw (js_Error "Cart is empty")
     /\ exec run w = w)
    /\ (forall e,
          CartState.items (cart w) <> [] ->
          orders_api server (order_payload customerId (CartState.items (cart w)))
            ("Bearer " ++ token)%string = Throw e ->
          result run w = Throw e /\ cart (exec run w) = cart w)
    /\ (forall data,
          CartState.items (cart w) <> [] ->
          orders_api server (order_payload customerId (CartState.items (cart w)))
            ("Bearer " ++ token)%string = Normal data ->
          result run w = Normal data /\ CartState.items (cart (exec run w)) = [])
    /\ (forall e, result run w = Throw e -> cart (exec run w) = cart w).
Proof.
  intros server customerId token w run. subst run.
  unfold result, exec. rewrite checkout_run.
  destruct (CartState.items (cart w)) as [| item rest] eqn:E.
  - repeat split; simpl; congruence.
  - cbv zeta.
    destruct (orders_api server _ _) as [data | e] eqn:Eapi;
      repeat split; simpl; try congruence.
Qed.

Lemma checkout_atomic_witness :
  CartState.items (cart (page_with_input "")) <> []
  /\ result (checkout (unreachable_server network_down) 42 "tok")
       (page_with_input "") = Throw network_down
  /\ cart (exec (checkout (unreachable_server network_down) 42 "tok")
             (page_with_input ""))
     = cart (page_with_input "").
Proof.
  assert (H : CartState.items (cart (page_with_input "")) <> [])
    by (simpl; discriminate).
  split; [exact H |].
  exact (proj1 (proj2 (checkout_atomic (unreachable_server network_down) 42 "tok"
                         (page_with_input "")))
           network_down H eq_refl).
Defined.

(* ================================================================= *)
(** ** Chat component: [handleSend] *)

(** One run of [handleSend], by cases on its guard and on the answer of
    the chat endpoint. *)
Lemma handleSend_run (server : Server) (onProductsUpdate : bool) (w : World) :
  handleSend server onProductsUpdate w
  = if sendable w
    then match chat_api server (chat_request w) with
         | Normal reply => (Normal tt, replied onProductsUpdate reply (awaiting w))
         | Throw e => (Normal tt, failed e (awaiting w))
         end
    else (Normal tt, w).
Proof.
  unfold handleSend, sendable, bind, get_state.
  destruct (truthy_string (trim (input w))); simpl; [| reflexivity].
  destruct (isLoading w); simpl; [reflexivity |].
  unfold try_finally, try_catch, bind, modify, post_chat, when, ret.
  simpl.
  fold (chat_request w).
  destruct (chat_api server (chat_request w)) as [reply | e]; simpl.
  - unfold replied, awaiting, user_message. cbv zeta.
    destruct (truthy (opt_chain (ChatReply.data reply) "clear_cart"));
      destruct (truthy (opt_chain (ChatReply.data reply) "products"));
      destruct onProductsUpdate; reflexivity.
  - reflexivity.
Qed.

(** C2: when the chat request is rejected, the history after
    [handleSend] is the history before it, followed by the customer's
    message and then by one assistant message with the fixed text
    'Sorry, I encountered an error. Please try again.'. *)
Theorem handleSend_failure_degrades :
  forall (server : Server) (onProductsUpdate : bool) (w : World) (e : JsValue),
    sendable w = true ->
    chat_api server (chat_request w) = Throw e ->
    ChatState.messages (chat (exec (handleSend server onProductsUpdate) w))
    = ChatState.messages (chat w)
      ++ [Message.mk Message.user (input w) None JUndefined;
          Message.mk Message.assistant
            "Sorry, I encountered an error. Please try again."
            (Some "error") JUndefined].
Proof.
  intros server onProductsUpdate w e Hsend Hfail.
  unfold exec. rewrite handleSend_run, Hsend, Hfail. simpl.
  now rewrite <- app_assoc.
Qed.

Lemma handleSend_failure_degrades_witness :
  sendable (page_with_input "Find me a blue dress") = true
  /\ ChatState.messages
       (chat (exec (handleSend (unreachable_server network_down) true)
                (page_with_input "Find me a blue dress")))
     = [greeting;
        Message.mk Message.user "Find me a blue dress" None JUndefined;
        Message.mk Message.assistant
          "Sorry, I encountered an error. Please try again."
          (Some "error") JUndefined].
Proof.
  split; [reflexivity |].
  exact (handleSend_failure_degrades (unreachable_server network_down) true
           (page_with_input "Find me a blue dress") network_down
           eq_refl eq_refl).
Defined.

(** C3: after a resolved exchange the cart is empty when the reply's
    data has a truthy [clear_cart] field and is the cart from before the
    exchange otherwise, in particular when the field is absent; the
    outcome for the cart is the same for any two replies with the same
    data, whatever their text and agent name. *)
Theorem handleSend_clears_cart_on_directive :
  forall (server : Server) (onProductsUpdate : bool) (w : World)
         (reply : ChatReply.t),
    sendable w = true ->
    chat_api server (chat_request w) = Normal reply ->
    let w' := exec (handleSend server onProductsUpdate) w in
    let directive := opt_chain (ChatReply.data reply) "clear_cart" in
    (truthy directive = true -> CartState.items (cart w') = [])
    /\ (truthy directive = false -> cart w' = cart w)
    /\ (directive = JUndefined -> cart w' = cart w)
    /\ (CartState.items (cart w) <> [] ->
        (CartState.items (cart w') = [] <-> truthy directive = true))
    /\ (forall (server2 : Server) (reply2 : ChatReply.t),
          chat_api server2 (chat_request w) = Normal reply2 ->
          ChatReply.data reply2 = ChatReply.data reply ->
          cart (exec (handleSend server2 onProductsUpdate) w) = cart w').
Proof.
  intros server onProductsUpdate w reply Hsend Hok w' directive.
  assert (Hcart : forall s r,
             chat_api s (chat_request w) = Normal r ->
             cart (exec (handleSend s onProductsUpdate) w)
             = if truthy (opt_chain (ChatReply.data r) "clear_cart")
               then CartState.mk [] else cart w).
  { intros s r Hr. unfold exec. rewrite handleSend_run, Hsend, Hr.
    unfold replied. cbv zeta.
    destruct (truthy (opt_chain (ChatReply.data r) "clear_cart"));
      destruct (truthy (opt_chain (ChatReply.data r) "products")
                && onProductsUpdate); reflexivity. }
  subst w'. rewrite (Hcart server reply Hok). fold directive.
  split; [| split; [| split; [| split]]].
  - intros Ht. now rewrite Ht.
  - intros Hf. now rewrite Hf.
  - intros Hu. now rewrite Hu.
  - intros Hne. destruct (truthy directive); simpl; split; congruence.
  - intros server2 reply2 Hok2 Hdata.
    rewrite (Hcart server2 reply2 Hok2), Hdata. reflexivity.
Qed.

Lemma handleSend_clears_cart_on_directive_witness :
  sendable (page_with_input "Place my order") = true
  /\ CartState.items (cart (page_with_input "Place my order")) <> []
  /\ CartState.items
       (cart (exec (handleSend (constant_server clearing_reply) true)
                (page_with_input "Place my order")))
     = [].
Proof.
  split; [reflexivity |].
  split; [simpl; discriminate |].
  exact (proj1 (handleSend_clears_cart_on_directive
                  (constant_server clearing_reply) true
                  (page_with_input "Place my order") clearing_reply
                  eq_refl eq_refl)
           eq_refl).
Defined.

(** C4, as stated, fails: an input of one space is not empty, yet
    [handleSend] returns at its guard and sends nothing. *)
Lemma handleSend_skips_blank_input :
  input (page_with_input " ") <> EmptyString
  /\ network (exec (handleSend (unreachable_server network_down) true)
                (page_with_input " "))
     = network (page_with_input " ")
  /\ chat (exec (handleSend (unreachable_server network_down) true)
             (page_with_input " "))
     = chat (page_with_input " ").
Proof.
  split; [discriminate |]. split; reflexivity.
Qed.

(** C4, amended: for every input that is not blank (not empty once
    trimmed), sent while no request is in flight, [handleSend] sends
    one request to the chat endpoint whose body holds the input as
    message, the customer id of the signed-in user if there is one, and
    a context with the cart items and the page path; from a resolved
    reply it takes the text, the agent name and the data, which the
    appended assistant message carries. *)
Theorem handleSend_uses_chat_boundary :
  forall (server : Server) (onProductsUpdate : bool) (w : World),
    sendable w = true ->
    let w' := exec (handleSend server onProductsUpdate) w in
    exists body : ChatRequest.t,
      network w' = network w ++ [PostChat chat_url body]
      /\ ChatRequest.message body = input w
      /\ ChatRequest.customer_id body
         = option_map User.customer_id (AuthState.user (auth w))
      /\ ChatRequest.cart_items (ChatRequest.context body)
         = CartState.items (cart w)
      /\ ChatRequest.page_context (ChatRequest.context body) = pathname w
      /\ (forall reply : ChatReply.t,
            chat_api server body = Normal reply ->
            ChatState.messages (chat w')
            = ChatState.messages (chat w)
              ++ [Message.mk Message.user (input w) None JUndefined;
                  Message.mk Message.assistant (ChatReply.response reply)
                    (ChatReply.agent_name reply) (ChatReply.data reply)]).
Proof.
  intros server onProductsUpdate w Hsend w'. subst w'.
  exists (chat_request w).
  unfold exec. rewrite handleSend_run, Hsend.
  split; [| split; [| split; [| split; [| split]]]]; try reflexivity.
  - destruct (chat_api server (chat_request w)) as [reply | e];
      [| reflexivity].
    unfold replied. cbv zeta.
    destruct (truthy (opt_chain (ChatReply.data reply) "clear_cart"));
      destruct (truthy (opt_chain (ChatReply.data reply) "products")
                && onProductsUpdate); reflexivity.
  - intros reply Hok. rewrite Hok.
    unfold replied. cbv zeta.
    destruct (truthy (opt_chain (ChatReply.data reply) "clear_cart"));
      destruct (truthy (opt_chain (ChatReply.data reply) "products")
                && onProductsUpdate);
      simpl; now rewrite <- app_assoc.
Qed.

Lemma handleSend_uses_chat_boundary_witness :
  sendable (page_with_input "Place my order") = true
  /\ exists body : ChatRequest.t,
       network (exec (handleSend (constant_server clearing_reply) true)
                  (page_with_input "Place my order"))
       = [PostChat chat_url body]
       /\ ChatRequest.message body = "Place my order"
       /\ ChatRequest.customer_id body = Some 42.
Proof.
  split; [reflexivity |].
  destruct (handleSend_uses_chat_boundary (constant_server clearing_reply) true
              (page_with_input "Place my order") eq_refl)
    as (body & Hnet & Hmsg & Hcust & _).
  exists body. repeat split; assumption.
Defined.

(** C7: the text shown after a failed request does not depend on the
    failure.  For any two rejections of the same request, with any two
    thrown values, the pages the customer sees afterwards are equal: the
    same history, ending in the same assistant message with the fixed
    text, the same cart, input and loading flag.  The thrown value goes
    to the console only. *)
Theorem handleSend_error_text_independent :
  forall (server1 server2 : Server) (onProductsUpdate : bool) (w : World)
         (e1 e2 : JsValue),
    sendable w = true ->
    chat_api server1 (chat_request w) = Throw e1 ->
    chat_api server2 (chat_request w) = Throw e2 ->
    let w1 := exec (handleSend server1 onProductsUpdate) w in
    let w2 := exec (handleSend server2 onProductsUpdate) w in
    visible w1 = visible w2
    /\ last (ChatState.messages (chat w1)) greeting
       = Message.mk Message.assistant
           "Sorry, I encountered an error. Please try again."
           (Some "error") JUndefined
    /\ console w1 = console w ++ [("Failed to send message:", e1)].
Proof.
  intros server1 server2 onProductsUpdate w e1 e2 Hsend H1 H2 w1 w2.
  subst w1 w2. unfold exec.
  rewrite !handleSend_run, Hsend, H1, H2.
  split; [reflexivity | split; [| reflexivity]].
  simpl. apply last_last.
Qed.

Lemma handleSend_error_text_independent_witness :
  sendable (page_with_input "Find me a blue dress") = true
  /\ visible (exec (handleSend (unreachable_server network_down) true)
                (page_with_input "Find me a blue dress"))
     = visible (exec (handleSend (unreachable_server JNull) true)
                  (page_with_input "Find me a blue dress")).
Proof.
  split; [reflexivity |].
  exact (proj1 (handleSend_error_text_independent
                  (unreachable_server network_down) (unreachable_server JNull)
                  true (page_with_input "Find me a blue dress")
                  network_down JNull eq_refl eq_refl eq_refl)).
Defined.

(* ================================================================= *)
(** ** Chat component: the guard, the flags and the product panel *)

Lemma trimStart_blank (s : string) :
  blank s = true -> trimStart s = EmptyString.
Proof.
  induction s as [| c rest IH]; simpl; [reflexivity |].
  destruct (isWhiteSpace c); simpl; [exact IH | discriminate].
Qed.

Lemma trimStart_not_blank (s : string) :
  blank s = false ->
  exists c rest, trimStart s = String c rest /\ isWhiteSpace c = false.
Proof.
  induction s as [| c rest IH]; simpl; [discriminate |].
  destruct (isWhiteSpace c) eqn:E; simpl.
  - exact IH.
  - intros _. now exists c, rest.
Qed.

Lemma trimEnd_keeps_head (c : ascii) (rest : string) :
  isWhiteSpace c = false -> truthy_string (trimEnd (String c rest)) = true.
Proof.
  intros E. simpl. destruct (trimEnd rest); [now rewrite E | reflexivity].
Qed.

Lemma truthy_trim (s : string) : truthy_string (trim s) = negb (blank s).
Proof.
  unfold trim. destruct (blank s) eqn:E.
  - now rewrite trimStart_blank.
  - destruct (trimStart_not_blank s E) as (c & rest & Es & Ec).
    rewrite Es. now apply trimEnd_keeps_head.
Qed.

Lemma blank_all_whitespace (s : string) :
  blank s = true
  <-> forall c, In c (list_ascii_of_string s) -> isWhiteSpace c = true.
Proof.
  induction s as [| c rest IH]; simpl.
  - split; [intros _ ? [] | reflexivity].
  - rewrite andb_true_iff, IH. split.
    + intros [Hc Hr] x [<- | Hx]; auto.
    + intros H. split; [apply H; now left | intros x Hx; apply H; now right].
Qed.

Lemma lastMessage_snoc (l : list Message.t) (m : Message.t) :
  lastMessage (l ++ [m]) = Some m.
Proof.
  unfold lastMessage.
  destruct (l ++ [m]) as [| x l'] eqn:E.
  - destruct l; discriminate.
  - rewrite <- E, length_app. simpl.
    rewrite Nat.add_sub, nth_error_app2, Nat.sub_diag by lia.
    reflexivity.
Qed.

(** X1: [handleSend] does nothing at all, and completes normally, when
    the input consists of white space only (the empty input included)
    or a request is in flight; when the input has a character that is
    not white space and no request is in flight, it sends the request
    built from the page. *)
Theorem handleSend_guard :
  forall (server : Server) (onProductsUpdate : bool) (w : World),
    ((forall c, In c (list_ascii_of_string (input w)) -> isWhiteSpace c = true)
     \/ isLoading w = true ->
     handleSend server onProductsUpdate w = (Normal tt, w))
    /\ ((exists c, In c (list_ascii_of_string (input w))
                   /\ isWhiteSpace c = false) ->
        isLoading w = false ->
        network (exec (handleSend server onProductsUpdate) w)
        = network w ++ [PostChat chat_url (chat_request w)]).
Proof.
  intros server onProductsUpdate w.
  rewrite handleSend_run. unfold sendable. rewrite truthy_trim.
  split.
  - intros [Hblank | Hload].
    + apply blank_all_whitespace in Hblank. now rewrite Hblank.
    + rewrite Hload. now rewrite andb_false_r.
  - intros (c & Hin & Hc) Hload.
    assert (Hnb : blank (input w) = false).
    { destruct (blank (input w)) eqn:E; [| reflexivity].
      rewrite blank_all_whitespace in E. rewrite (E c Hin) in Hc.
      discriminate. }
    unfold exec. rewrite handleSend_run. unfold sendable.
    rewrite truthy_trim, Hnb, Hload. simpl.
    destruct (chat_api server (chat_request w)) as [reply | e];
      [| reflexivity].
    unfold replied. cbv zeta.
    destruct (truthy (opt_chain (ChatReply.data reply) "clear_cart"));
      destruct (truthy (opt_chain (ChatReply.data reply) "products")
                && onProductsUpdate); reflexivity.
Qed.

Lemma handleSend_guard_witness :
  isLoading (setIsLoading true (page_with_input "hello")) = true
  /\ handleSend (constant_server clearing_reply) true
       (setIsLoading true (page_with_input "hello"))
     = (Normal tt, setIsLoading true (page_with_input "hello")).
Proof.
  split; [reflexivity |].
  apply (proj1 (handleSend_guard (constant_server clearing_reply) true
                  (setIsLoading true (page_with_input "hello")))).
  right. reflexivity.
Defined.

(** X2: [handleSend] never throws to its caller, whatever the backend
    does; it leaves the loading flag as it found it, and the input box
    is empty after a call that passed the guard and untouched
    otherwise. *)
Theorem handleSend_completes :
  forall (server : Server) (onProductsUpdate : bool) (w : World),
    result (handleSend server onProductsUpdate) w = Normal tt
    /\ isLoading (exec (handleSend server onProductsUpdate) w) = isLoading w
    /\ input (exec (handleSend server onProductsUpdate) w)
       = if sendable w then EmptyString else input w.
Proof.
  intros server onProductsUpdate w.
  unfold result, exec. rewrite handleSend_run.
  destruct (sendable w) eqn:Hs; [| now repeat split].
  assert (Hl : isLoading w = false).
  { unfold sendable in Hs. apply andb_true_iff in Hs.
    destruct Hs as [_ Hs]. now destruct (isLoading w). }
  rewrite Hl.
  destruct (chat_api server (chat_request w)) as [reply | e];
    [| now repeat split].
  unfold replied. cbv zeta.
  destruct (truthy (opt_chain (ChatReply.data reply) "clear_cart"));
    destruct (truthy (opt_chain (ChatReply.data reply) "products")
              && onProductsUpdate); now repeat split.
Qed.

(** X3: calling [handleSend] again before anything is typed changes
    nothing: the second call finds an empty input (or the same blocked
    page) and returns at its guard, so no message is sent twice. *)
Theorem handleSend_twice_is_once :
  forall (server1 server2 : Server) (on1 on2 : bool) (w : World),
    exec (handleSend server2 on2) (exec (handleSend server1 on1) w)
    = exec (handleSend server1 on1) w.
Proof.
  intros server1 server2 on1 on2 w.
  destruct (sendable w) eqn:Hs.
  - assert (Hempty : input (exec (handleSend server1 on1) w) = EmptyString).
    { rewrite (proj2 (proj2 (handleSend_completes server1 on1 w))).
      now rewrite Hs. }
    unfold exec at 1. rewrite handleSend_run.
    unfold sendable at 1. now rewrite Hempty.
  - unfold exec. rewrite (handleSend_run server1), Hs. simpl.
    now rewrite handleSend_run, Hs.
Qed.

(** X4: a failed exchange touches the chat history, the console and the
    network log only: the cart, the session and the product panel are as
    before, and one request, the one built from the page, was sent. *)
Theorem handleSend_failure_frame :
  forall (server : Server) (onProductsUpdate : bool) (w : World) (e : JsValue),
    sendable w = true ->
    chat_api server (chat_request w) = Throw e ->
    let w' := exec (handleSend server onProductsUpdate) w in
    cart w' = cart w
    /\ auth w' = auth w
    /\ selectedProducts w' = selectedProducts w
    /\ pathname w' = pathname w
    /\ network w' = network w ++ [PostChat chat_url (chat_request w)].
Proof.
  intros server onProductsUpdate w e Hs He w'. subst w'.
  unfold exec. rewrite handleSend_run, Hs, He. now repeat split.
Qed.

Lemma handleSend_failure_frame_witness :
  sendable (page_with_input "Find me a blue dress") = true
  /\ cart (exec (handleSend (unreachable_server network_down) true)
             (page_with_input "Find me a blue dress"))
     = sample_cart.
Proof.
  split; [reflexivity |].
  exact (proj1 (handleSend_failure_frame (unreachable_server network_down) true
                  (page_with_input "Find me a blue dress") network_down
                  eq_refl eq_refl)).
Defined.

(** X5: after a resolved exchange the product panel shows the reply's
    [products] when that field is truthy and the component was given the
    update callback; without the callback, or when the field is falsy or
    missing, the panel is not touched.  The session is never touched. *)
Theorem handleSend_updates_products :
  forall (server : Server) (onProductsUpdate : bool) (w : World)
         (reply : ChatReply.t),
    sendable w = true ->
    chat_api server (chat_request w) = Normal reply ->
    let w' := exec (handleSend server onProductsUpdate) w in
    let products := opt_chain (ChatReply.data reply) "products" in
    (truthy products = true -> onProductsUpdate = true ->
     selectedProducts w' = products)
    /\ (truthy products = false -> selectedProducts w' = selectedProducts w)
    /\ (onProductsUpdate = false -> selectedProducts w' = selectedProducts w)
    /\ auth w' = auth w.
Proof.
  intros server onProductsUpdate w reply Hs Hr w' products. subst w'.
  unfold exec. rewrite handleSend_run, Hs, Hr.
  unfold replied. cbv zeta. fold products.
  destruct (truthy (opt_chain (ChatReply.data reply) "clear_cart"));
    destruct (truthy products); destruct onProductsUpdate; simpl;
    (split; [| split; [| split]]); intros; congruence.
Qed.

Lemma handleSend_updates_products_witness :
  sendable (page_with_input "Find me a blue dress") = true
  /\ selectedProducts
       (exec (handleSend (constant_server products_reply) true)
          (page_with_input "Find me a blue dress"))
     = JArray [JObject [("product_id", JNumber 7)]].
Proof.
  split; [reflexivity |].
  exact (proj1 (handleSend_updates_products (constant_server products_reply) true
                  (page_with_input "Find me a blue dress") products_reply
                  eq_refl eq_refl)
           eq_refl eq_refl).
Defined.

(** X6: mounting the chat component again right after an exchange
    changes nothing: the products restored from the last message are the
    ones the exchange left in the panel, and after a failed exchange the
    last message carries none. *)
Theorem restoreProducts_after_exchange :
  forall (server : Server) (onProductsUpdate : bool) (w : World),
    sendable w = true ->
    restoreProducts onProductsUpdate
      (exec (handleSend server onProductsUpdate) w)
    = exec (handleSend server onProductsUpdate) w.
Proof.
  intros server onProductsUpdate w Hs.
  unfold exec. rewrite handleSend_run, Hs.
  destruct (chat_api server (chat_request w)) as [reply | e]; simpl.
  - assert (Hlast : forall w1,
               chat w1
               = addMessage
                   (Message.mk Message.assistant (ChatReply.response reply)
                      (ChatReply.agent_name reply) (ChatReply.data reply))
                   (chat (awaiting w)) ->
               lastProducts w1 = opt_chain (ChatReply.data reply) "products").
    { intros w1 E. unfold lastProducts. rewrite E. unfold addMessage.
      cbn [ChatState.messages]. now rewrite lastMessage_snoc. }
    unfold restoreProducts, replied. cbv zeta.
    destruct (truthy (opt_chain (ChatReply.data reply) "clear_cart"));
      destruct (truthy (opt_chain (ChatReply.data reply) "products")) eqn:Hp;
      destruct onProductsUpdate;
      rewrite Hlast by reflexivity; rewrite Hp; reflexivity.
  - unfold restoreProducts, lastProducts, failed.
    cbn [chat with_chat setIsLoading console_error addMessage
         ChatState.messages].
    now rewrite lastMessage_snoc.
Qed.

Lemma restoreProducts_after_exchange_witness :
  sendable (page_with_input "Find me a blue dress") = true
  /\ restoreProducts true
       (exec (handleSend (constant_server products_reply) true)
          (page_with_input "Find me a blue dress"))
     = exec (handleSend (constant_server products_reply) true)
         (page_with_input "Find me a blue dress").
Proof.
  split; [reflexivity |].
  exact (restoreProducts_after_exchange (constant_server products_reply) true
           (page_with_input "Find me a blue dress") eq_refl).
Defined.

(* ================================================================= *)
(** ** Cart store: removing, updating, totals *)

Lemma filter_absent (pid : Z) (l : list CartItem.t) :
  ~ In pid (map CartItem.product_id l) ->
  filter (fun item => negb (CartItem.product_id item =? pid)) l = l.
Proof.
  induction l as [| x l IH]; simpl; intros H; [reflexivity |].
  destruct (Z.eqb_spec (CartItem.product_id x) pid) as [E | E]; simpl.
  - tauto.
  - rewrite IH; tauto.
Qed.

Lemma NoDup_ids_filter (keep : CartItem.t -> bool) (l : list CartItem.t) :
  NoDup (map CartItem.product_id l) ->
  NoDup (map CartItem.product_id (filter keep l)).
Proof.
  induction l as [| x l IH]; simpl; intros H; [constructor |].
  inversion H as [| ? ? Hx Hl]; subst.
  destruct (keep x); simpl; [| now apply IH].
  constructor; [| now apply IH].
  intros Hin. apply Hx.
  apply in_map_iff in Hin. destruct Hin as (y & Ey & Hy).
  apply filter_In in Hy. apply in_map_iff. exists y. tauto.
Qed.

Lemma sum_quantities_nonneg (l : list CartItem.t) :
  Forall (fun item => 0 <= CartItem.quantity item) l -> 0 <= sum_quantities l.
Proof.
  induction 1 as [| x l Hx _ IH]; simpl; lia.
Qed.

(** While the running sum stays within the integers that doubles hold
    exactly, the [reduce] of [totalItems] computes the exact sum. *)
Lemma fold_quantities (l : list CartItem.t) (acc : Z) :
  0 <= acc ->
  Forall (fun item => 0 <= CartItem.quantity item) l ->
  acc + sum_quantities l <= 2 ^ 53 ->
  fold_left (fun a item => js_accumulate a (CartItem.quantity item)) l
    (Finite acc)
  = Finite (acc + sum_quantities l).
Proof.
  intros Hacc Hall. revert acc Hacc.
  induction Hall as [| x l Hx Hl IH]; intros acc Hacc Hsum; simpl.
  - now rewrite Z.add_0_r.
  - simpl in Hsum. pose proof (sum_quantities_nonneg l Hl) as Hrest.
    rewrite js_accumulate_exact by lia.
    rewrite IH by lia. f_equal. lia.
Qed.

Lemma totalItems_sum (st : CartState.t) :
  Forall (fun item => 0 <= CartItem.quantity item) (CartState.items st) ->
  sum_quantities (CartState.items st) <= 2 ^ 53 ->
  totalItems st = Finite (sum_quantities (CartState.items st)).
Proof.
  intros Hall Hsum. unfold totalItems.
  now rewrite fold_quantities by (try exact Hall; lia).
Qed.

Lemma sum_quantities_app (l1 l2 : list CartItem.t) :
  sum_quantities (l1 ++ l2) = sum_quantities l1 + sum_quantities l2.
Proof. induction l1 as [| x l1 IH]; simpl; lia. Qed.

(** The two outcomes of [addToCart] on a cart with distinct ids. *)
Lemma addToCart_cases (product : Product.t) (st : CartState.t) :
  NoDup (map CartItem.product_id (CartState.items st)) ->
  (~ In (Product.product_id product)
        (map CartItem.product_id (CartState.items st))
   /\ CartState.items (addToCart product st)
      = CartState.items st ++ [newCartItem product])
  \/ (exists before item after,
        CartState.items st = before ++ item :: after
        /\ CartItem.product_id item = Product.product_id product
        /\ CartState.items (addToCart product st)
           = before
             ++ CartItem.with_quantity (js_add (CartItem.quantity item) 1) item
             :: after).
Proof.
  intros Hnd.
  destruct (in_dec Z.eq_dec (Product.product_id product)
              (map CartItem.product_id (CartState.items st))) as [Hin | Hout].
  - right. apply in_map_iff in Hin. destruct Hin as (item & Eid & Hitem).
    apply in_split in Hitem. destruct Hitem as (before & after & Est).
    exists before, item, after. split; [exact Est | split; [exact Eid |]].
    unfold addToCart.
    destruct (find _ (CartState.items st)) as [existing |] eqn:Hfind.
    + cbn [CartState.items].
      pose proof (bump_at (Product.product_id product) before after item)
        as Hmap.
      unfold bump_quantity in Hmap. rewrite Est.
      apply Hmap; [now rewrite <- Est | exact Eid].
    + apply find_id_none in Hfind. exfalso. apply Hfind.
      apply in_map_iff. exists item. split; [exact Eid |].
      rewrite Est, in_app_iff. right. now left.
  - left. split; [exact Hout |]. unfold addToCart.
    now rewrite (proj2 (find_id_none _ _) Hout).
Qed.

(** X7: [removeFromCart] removes the items with the given product id
    and nothing else: afterwards the id is not in the cart, every other
    item is still there, no item appears that was not there, distinct
    ids stay distinct, and removing an id that is not in the cart
    leaves the cart as it is. *)
Theorem removeFromCart_removes_exactly :
  forall (productId : Z) (st : CartState.t),
    ~ In productId
        (map CartItem.product_id (CartState.items (removeFromCart productId st)))
    /\ (forall item,
          In item (CartState.items (removeFromCart productId st))
          <-> In item (CartState.items st)
              /\ CartItem.product_id item <> productId)
    /\ (NoDup (map CartItem.product_id (CartState.items st)) ->
        NoDup (map CartItem.product_id
                 (CartState.items (removeFromCart productId st))))
    /\ (~ In productId (map CartItem.product_id (CartState.items st)) ->
        removeFromCart productId st = st).
Proof.
  intros productId st.
  assert (Hin : forall item,
             In item (CartState.items (removeFromCart productId st))
             <-> In item (CartState.items st)
                 /\ CartItem.product_id item <> productId).
  { intros item. simpl. rewrite filter_In, negb_true_iff, Z.eqb_neq.
    tauto. }
  split; [| split; [exact Hin | split]].
  - intros H. apply in_map_iff in H. destruct H as (item & Eid & Hitem).
    apply Hin in Hitem. tauto.
  - apply NoDup_ids_filter.
  - intros H. unfold removeFromCart. rewrite filter_absent by exact H.
    now destruct st.
Qed.

Lemma removeFromCart_removes_exactly_witness :
  ~ In 5 (map CartItem.product_id (CartState.items sample_cart))
  /\ removeFromCart 5 sample_cart = sample_cart.
Proof.
  assert (H : ~ In 5 (map CartItem.product_id (CartState.items sample_cart))).
  { simpl. intuition discriminate. }
  split; [exact H |].
  exact (proj2 (proj2 (proj2 (removeFromCart_removes_exactly 5 sample_cart))) H).
Defined.

(** X8: adding a product that is not in the cart and then removing it
    gives back the cart from before. *)
Theorem addToCart_then_remove :
  forall (product : Product.t) (st : CartState.t),
    ~ In (Product.product_id product)
        (map CartItem.product_id (CartState.items st)) ->
    removeFromCart (Product.product_id product) (addToCart product st) = st.
Proof.
  intros product st H.
  unfold addToCart.
  rewrite (proj2 (find_id_none (Product.product_id product)
                    (CartState.items st)) H).
  unfold removeFromCart. cbn [CartState.items].
  rewrite filter_app, filter_absent by exact H.
  simpl. rewrite Z.eqb_refl. simpl. rewrite app_nil_r. now destruct st.
Qed.

Lemma addToCart_then_remove_witness :
  ~ In (Product.product_id sample_product)
      (map CartItem.product_id (CartState.items initialCartState))
  /\ removeFromCart (Product.product_id sample_product)
       (addToCart sample_product initialCartState)
     = initialCartState.
Proof.
  assert (H : ~ In (Product.product_id sample_product)
                  (map CartItem.product_id (CartState.items initialCartState)))
    by (simpl; tauto).
  split; [exact H |].
  exact (addToCart_then_remove sample_product initialCartState H).
Defined.

(** X9: [updateQuantity] never adds or removes an item, whatever the
    quantity (zero and negative numbers included): the product ids of
    the cart are the same, in the same order; afterwards every item with
    the given id has the given quantity, and items with other ids are
    kept as they were. *)
Theorem updateQuantity_keeps_items :
  forall (productId quantity : Z) (st : CartState.t),
    map CartItem.product_id (CartState.items (updateQuantity productId quantity st))
    = map CartItem.product_id (CartState.items st)
    /\ (forall item,
          In item (CartState.items (updateQuantity productId quantity st)) ->
          CartItem.product_id item = productId ->
          CartItem.quantity item = quantity)
    /\ (forall item,
          In item (CartState.items st) ->
          CartItem.product_id item <> productId ->
          In item (CartState.items (updateQuantity productId quantity st))).
Proof.
  intros productId quantity st. unfold updateQuantity. cbn [CartState.items].
  split; [| split].
  - induction (CartState.items st) as [| x l IH]; simpl; [reflexivity |].
    rewrite IH. now destruct (CartItem.product_id x =? productId).
  - intros item Hin Hid. apply in_map_iff in Hin.
    destruct Hin as (old & E & _).
    destruct (Z.eqb_spec (CartItem.product_id old) productId) as [Eo | Eo].
    + now subst item.
    + subst item. contradiction.
  - intros item Hin Hid. apply in_map_iff. exists item. split; [| exact Hin].
    now rewrite (proj2 (Z.eqb_neq _ _) Hid).
Qed.

Lemma updateQuantity_keeps_items_witness :
  In (CartItem.mk 9 "Wool scarf" None 1 None "Acme") (CartState.items sample_cart)
  /\ In (CartItem.mk 9 "Wool scarf" None 1 None "Acme")
       (CartState.items (updateQuantity 7 0 sample_cart)).
Proof.
  assert (H : In (CartItem.mk 9 "Wool scarf" None 1 None "Acme")
                (CartState.items sample_cart))
    by (simpl; tauto).
  split; [exact H |].
  apply (proj2 (proj2 (updateQuantity_keeps_items 7 0 sample_cart)) _ H).
  simpl. discriminate.
Defined.

(** X10: on a cart with pairwise distinct product ids whose quantities
    are non-negative integers with a sum below 2^53, [totalItems] is the
    exact sum of the quantities, and [addToCart] raises it by exactly 1,
    whether the product was in the cart or not. *)
Theorem addToCart_adds_one_item :
  forall (product : Product.t) (st : CartState.t),
    NoDup (map CartItem.product_id (CartState.items st)) ->
    Forall (fun item => 0 <= CartItem.quantity item) (CartState.items st) ->
    sum_quantities (CartState.items st) < 2 ^ 53 ->
    totalItems st = Finite (sum_quantities (CartState.items st))
    /\ totalItems (addToCart product st)
       = Finite (sum_quantities (CartState.items st) + 1).
Proof.
  intros product st Hnd Hall Hsum.
  split; [apply totalItems_sum; [exact Hall | lia] |].
  destruct (addToCart_cases product st Hnd)
    as [[_ E] | (before & item & after & Est & _ & E)].
  - assert (Hsum' : sum_quantities (CartState.items (addToCart product st))
                    = sum_quantities (CartState.items st) + 1).
    { rewrite E, sum_quantities_app. simpl. lia. }
    rewrite totalItems_sum; [now rewrite Hsum' | | lia].
    rewrite E. apply Forall_app. split; [exact Hall |].
    constructor; [simpl; lia | constructor].
  - rewrite Est in Hall, Hsum.
    rewrite sum_quantities_app in Hsum. simpl in Hsum.
    apply Forall_app in Hall. destruct Hall as [Hb Hia].
    inversion Hia as [| ? ? Hitem Ha]; subst.
    pose proof (sum_quantities_nonneg before Hb) as Hnb.
    pose proof (sum_quantities_nonneg after Ha) as Hna.
    assert (Hq : js_add (CartItem.quantity item) 1 = CartItem.quantity item + 1)
      by (apply js_add_exact; lia).
    assert (Hsum' : sum_quantities (CartState.items (addToCart product st))
                    = sum_quantities (CartState.items st) + 1).
    { rewrite E, Est, !sum_quantities_app. simpl. rewrite Hq. lia. }
    rewrite totalItems_sum.
    + now rewrite Hsum'.
    + rewrite E. apply Forall_app. split; [exact Hb |].
      constructor; [simpl; rewrite Hq; lia | exact Ha].
    + rewrite Hsum', Est, sum_quantities_app. simpl. lia.
Qed.

Lemma addToCart_adds_one_item_witness :
  NoDup (map CartItem.product_id (CartState.items sample_cart))
  /\ Forall (fun item => 0 <= CartItem.quantity item) (CartState.items sample_cart)
  /\ sum_quantities (CartState.items sample_cart) < 2 ^ 53
  /\ totalItems sample_cart = Finite 3
  /\ totalItems (addToCart sample_product sample_cart) = Finite 4.
Proof.
  assert (H : NoDup (map CartItem.product_id (CartState.items sample_cart))).
  { simpl. repeat constructor; simpl; intuition discriminate. }
  assert (Hall : Forall (fun item => 0 <= CartItem.quantity item)
                   (CartState.items sample_cart)).
  { simpl. repeat constructor; simpl; discriminate. }
  assert (Hsum : sum_quantities (CartState.items sample_cart) < 2 ^ 53)
    by reflexivity.
  split; [exact H | split; [exact Hall | split; [exact Hsum |]]].
  exact (addToCart_adds_one_item sample_product sample_cart H Hall Hsum).
Defined.

(** X12: a second [checkout] right after a resolved one throws
    'Cart is empty' and sends no second order, whatever customer, token
    or backend it is called with. *)
Theorem checkout_again_is_refused :
  forall (server server2 : Server) (customerId customerId2 : Z)
         (token token2 : string) (w : World) (data : JsValue),
    result (checkout server customerId token) w = Normal data ->
    let w1 := exec (checkout server customerId token) w in
    checkout server2 customerId2 token2 w1
    = (Throw (js_Error "Cart is empty"), w1).
Proof.
  intros server server2 customerId customerId2 token token2 w data Hok w1.
  subst w1. revert Hok. unfold result, exec.
  rewrite (checkout_run server).
  destruct (CartState.items (cart w)) as [| item rest]; [discriminate |].
  cbv zeta. destruct (orders_api server _ _); [| discriminate].
  intros _. simpl. now rewrite checkout_run.
Qed.

Lemma checkout_again_is_refused_witness :
  result (checkout (constant_server clearing_reply) 42 "tok")
    (page_with_input "") = Normal (JObject [])
  /\ result (checkout (constant_server clearing_reply) 42 "tok")
       (exec (checkout (constant_server clearing_reply) 42 "tok")
          (page_with_input ""))
     = Throw (js_Error "Cart is empty").
Proof.
  split; [reflexivity |].
  unfold result at 1.
  rewrite (checkout_again_is_refused (constant_server clearing_reply)
             (constant_server clearing_reply) 42 42 "tok" "tok"
             (page_with_input "") (JObject []) eq_refl).
  reflexivity.
Defined.

(* ================================================================= *)
(** ** Lookbook store and the heart button *)

Lemma isInLookbook_after_remove (productId q : Z) (st : LookbookState.t) :
  isInLookbook q (removeFromLookbook productId st)
  = if q =? productId then false else isInLookbook q st.
Proof.
  unfold isInLookbook, removeFromLookbook. cbn [LookbookState.items].
  induction (LookbookState.items st) as [| x l IH]; simpl.
  - now destruct (q =? productId).
  - destruct (Z.eqb_spec (Product.product_id x) productId) as [E | E]; simpl.
    + rewrite IH. destruct (Z.eqb_spec q productId) as [Eq | Eq];
        [reflexivity |].
      destruct (Z.eqb_spec (Product.product_id x) q); [congruence | reflexivity].
    + rewrite IH. destruct (Z.eqb_spec q productId) as [Eq | Eq];
        [| reflexivity].
      destruct (Z.eqb_spec (Product.product_id x) q); [congruence | reflexivity].
Qed.

Lemma isInLookbook_after_add (product : Product.t) (q : Z) (st : LookbookState.t) :
  isInLookbook q (addToLookbook product st)
  = (q =? Product.product_id product) || isInLookbook q st.
Proof.
  unfold isInLookbook, addToLookbook.
  destruct (existsb _ (LookbookState.items st)) eqn:E.
  - destruct (Z.eqb_spec q (Product.product_id product)) as [-> | _];
      [now rewrite E | reflexivity].
  - cbn [LookbookState.items]. rewrite existsb_app. simpl.
    rewrite orb_false_r, orb_comm. f_equal. apply Z.eqb_sym.
Qed.

Lemma lookbook_filter_absent (productId : Z) (l : list Product.t) :
  existsb (fun i => Product.product_id i =? productId) l = false ->
  filter (fun i => negb (Product.product_id i =? productId)) l = l.
Proof.
  induction l as [| x l IH]; simpl; [reflexivity |].
  destruct (Product.product_id x =? productId); simpl; [discriminate |].
  intros H. now rewrite IH.
Qed.

(** X13: after [removeFromLookbook] of an id, [isInLookbook] of that id
    is false and [isInLookbook] of every other id is as before;
    removing an id that is not in the lookbook leaves it as it is. *)
Theorem removeFromLookbook_removes_exactly :
  forall (productId : Z) (st : LookbookState.t),
    isInLookbook productId (removeFromLookbook productId st) = false
    /\ (forall q, q <> productId ->
          isInLookbook q (removeFromLookbook productId st) = isInLookbook q st)
    /\ (isInLookbook productId st = false ->
        removeFromLookbook productId st = st).
Proof.
  intros productId st. split; [| split].
  - now rewrite isInLookbook_after_remove, Z.eqb_refl.
  - intros q Hq. rewrite isInLookbook_after_remove.
    now rewrite (proj2 (Z.eqb_neq _ _) Hq).
  - intros H. unfold removeFromLookbook.
    rewrite lookbook_filter_absent by exact H. now destruct st.
Qed.

Lemma removeFromLookbook_removes_exactly_witness :
  9 <> 7
  /\ isInLookbook 9 (removeFromLookbook 7 sample_lookbook)
     = isInLookbook 9 sample_lookbook.
Proof.
  assert (H : 9 <> 7) by discriminate.
  split; [exact H |].
  exact (proj1 (proj2 (removeFromLookbook_removes_exactly 7 sample_lookbook)) 9 H).
Defined.

(** X14: a click on the heart button of a product flips whether the
    product is in the lookbook and changes that for no other product. *)
Theorem onHeartClick_flips_membership :
  forall (product : Product.t) (st : LookbookState.t),
    isInLookbook (Product.product_id product) (onHeartClick product st)
    = negb (isInLookbook (Product.product_id product) st)
    /\ (forall q, q <> Product.product_id product ->
          isInLookbook q (onHeartClick product st) = isInLookbook q st).
Proof.
  intros product st. unfold onHeartClick.
  destruct (isInLookbook (Product.product_id product) st) eqn:E; split.
  - now rewrite isInLookbook_after_remove, Z.eqb_refl.
  - intros q Hq. rewrite isInLookbook_after_remove.
    now rewrite (proj2 (Z.eqb_neq _ _) Hq).
  - now rewrite isInLookbook_after_add, Z.eqb_refl.
  - intros q Hq. rewrite isInLookbook_after_add.
    now rewrite (proj2 (Z.eqb_neq _ _) Hq).
Qed.

Lemma onHeartClick_flips_membership_witness :
  9 <> Product.product_id sample_product
  /\ isInLookbook 9 (onHeartClick sample_product sample_lookbook)
     = isInLookbook 9 sample_lookbook.
Proof.
  assert (H : 9 <> Product.product_id sample_product) by discriminate.
  split; [exact H |].
  exact (proj2 (onHeartClick_flips_membership sample_product sample_lookbook) 9 H).
Defined.

(** X15: two clicks on the heart button of a product that was not in
    the lookbook give back the lookbook from before; so does
    [removeFromLookbook] after [addToLookbook] of such a product. *)
Theorem onHeartClick_twice_restores :
  forall (product : Product.t) (st : LookbookState.t),
    isInLookbook (Product.product_id product) st = false ->
    onHeartClick product (onHeartClick product st) = st
    /\ removeFromLookbook (Product.product_id product)
         (addToLookbook product st) = st.
Proof.
  intros product st H.
  assert (Hback : removeFromLookbook (Product.product_id product)
                    (addToLookbook product st) = st).
  { unfold addToLookbook. unfold isInLookbook in H. rewrite H.
    unfold removeFromLookbook. cbn [LookbookState.items].
    rewrite filter_app, lookbook_filter_absent by exact H.
    simpl. rewrite Z.eqb_refl. simpl. rewrite app_nil_r. now destruct st. }
  split; [| exact Hback].
  unfold onHeartClick at 2. rewrite H.
  unfold onHeartClick.
  rewrite isInLookbook_after_add, Z.eqb_refl. simpl. exact Hback.
Qed.

Lemma onHeartClick_twice_restores_witness :
  isInLookbook (Product.product_id sample_product) initialLookbookState = false
  /\ onHeartClick sample_product (onHeartClick sample_product initialLookbookState)
     = initialLookbookState.
Proof.
  split; [reflexivity |].
  exact (proj1 (onHeartClick_twice_restores sample_product initialLookbookState
                  eq_refl)).
Defined.

(* ================================================================= *)
(** ** Session: auth store and the route guard *)

(** X16: after [login] the session counts as authenticated exactly when
    the token is not the empty string, whatever the session was before;
    after [logout] it does not, and token and user are gone. *)
Theorem login_logout_session :
  forall (token : string) (user : User.t) (st : AuthState.t),
    (isAuthenticated (login token user st) = true <-> token <> EmptyString)
    /\ AuthState.user (login token user st) = Some user
    /\ isAuthenticated (logout (login token user st)) = false
    /\ logout st = initialAuthState.
Proof.
  intros token user st. split; [| now repeat split].
  unfold isAuthenticated, login. cbn [AuthState.token].
  destruct token; simpl; split; congruence.
Qed.

Lemma login_logout_session_witness :
  "tok" <> EmptyString
  /\ isAuthenticated (login "tok" sample_user initialAuthState) = true.
Proof.
  assert (H : "tok" <> EmptyString) by discriminate.
  split; [exact H |].
  exact (proj2 (proj1 (login_logout_session "tok" sample_user initialAuthState)) H).
Defined.

Lemma includes_public (pathname : string) :
  includes PUBLIC_PATHS pathname = true <-> In pathname PUBLIC_PATHS.
Proof.
  unfold includes, PUBLIC_PATHS. cbn [existsb In].
  rewrite orb_false_r, orb_true_iff, !String.eqb_eq. tauto.
Qed.

(** X17: the route guard shows its children to a visitor who is not
    signed in on the public paths [/login] and [/register] only, and
    shows nothing before it is mounted; a visitor who is not signed in
    and asks for any other path is sent to [/login], and nothing else
    is pushed. *)
Theorem AuthGuard_hides_protected_pages :
  forall (mounted : bool) (user : option User.t) (pathname : string),
    (AuthGuard_renders mounted user pathname = true ->
     mounted = true /\ (user = None -> In pathname PUBLIC_PATHS))
    /\ (mounted = true -> user = None -> ~ In pathname PUBLIC_PATHS ->
        AuthGuard_pushes mounted user pathname = ["/login"]
        /\ AuthGuard_renders mounted user pathname = false).
Proof.
  intros mounted user pathname.
  unfold AuthGuard_renders, AuthGuard_pushes.
  destruct (includes PUBLIC_PATHS pathname) eqn:E.
  - apply includes_public in E.
    destruct mounted, user; simpl; split; try tauto; try discriminate;
      intros; try split; try congruence; tauto.
  - assert (Hout : ~ In pathname PUBLIC_PATHS).
    { intros H. apply includes_public in H. congruence. }
    destruct mounted, user; simpl; split; try discriminate;
      intros; try split; try congruence; try tauto.
Qed.

Lemma AuthGuard_hides_protected_pages_witness :
  ~ In "/cart" PUBLIC_PATHS
  /\ AuthGuard_pushes true None "/cart" = ["/login"]
  /\ AuthGuard_renders true None "/cart" = false.
Proof.
  assert (H : ~ In "/cart" PUBLIC_PATHS).
  { simpl. intros [E | [E | []]]; discriminate. }
  split; [exact H |].
  exact (proj2 (AuthGuard_hides_protected_pages true None "/cart")
           eq_refl eq_refl H).
Defined.

(** X18: the route guard cannot loop.  It pushes at most one target per
    run; the target is [/login] for a visitor who is not signed in and
    [/] for one who is; and on the target, with the same session, it
    pushes nothing and shows its children. *)
Theorem AuthGuard_redirect_settles :
  forall (mounted : bool) (user : option User.t) (pathname target : string),
    In target (AuthGuard_pushes mounted user pathname) ->
    AuthGuard_pushes mounted user pathname = [target]
    /\ target = (if signed_in user then "/" else "/login")
    /\ AuthGuard_pushes mounted user target = []
    /\ AuthGuard_renders mounted user target = true.
Proof.
  intros mounted user pathname target.
  assert (Hcases :
            AuthGuard_pushes mounted user pathname = []
            \/ (mounted = true
                /\ AuthGuard_pushes mounted user pathname
                   = [if signed_in user then "/" else "/login"])).
  { unfold AuthGuard_pushes.
    destruct mounted, user, (includes PUBLIC_PATHS pathname); simpl; tauto. }
  destruct Hcases as [E | [Hm E]]; rewrite E; intros H; [destruct H |].
  destruct H as [<- | []]. subst mounted.
  split; [reflexivity | split; [reflexivity |]].
  destruct user; split; reflexivity.
Qed.

Lemma AuthGuard_redirect_settles_witness :
  In "/" (AuthGuard_pushes true (Some sample_user) "/login")
  /\ AuthGuard_pushes true (Some sample_user) "/" = [].
Proof.
  assert (H : In "/" (AuthGuard_pushes true (Some sample_user) "/login"))
    by (simpl; tauto).
  split; [exact H |].
  exact (proj1 (proj2 (proj2
           (AuthGuard_redirect_settles true (Some sample_user) "/login" "/" H)))).
Defined.

(* ================================================================= *)
(** ** Header: the greeting *)

Lemma before_at_prefix (s : string) :
  exists rest : string,
    s = (before_at s ++ rest)%string
    /\ (rest = EmptyString \/ exists r, rest = String "@"%char r)
    /\ ~ In "@"%char (list_ascii_of_string (before_at s)).
Proof.
  induction s as [| c s IH]; simpl.
  - exists EmptyString. repeat split; tauto.
  - destruct (Ascii.eqb_spec c "@"%char) as [-> | Hc].
    + exists (String "@"%char s). simpl. repeat split; [right; eauto | tauto].
    + destruct IH as (rest & Es & Hrest & Hno).
      exists rest. simpl. repeat split.
      * now rewrite <- Es.
      * exact Hrest.
      * intros [E | Hin]; [congruence | tauto].
Qed.

(** X19: the header greets with the first name when the user has a
    non-empty one; otherwise with the part of the e-mail address before
    its first ['@'] (the whole address when it has none), which contains
    no ['@']. *)
Theorem headerName_shown :
  forall user : User.t,
    (forall name, User.first_name user = Some name -> name <> EmptyString ->
       headerName user = name)
    /\ (User.first_name user = None \/ User.first_name user = Some EmptyString ->
        exists rest : string,
          User.email user = (headerName user ++ rest)%string
          /\ (rest = EmptyString \/ exists r, rest = String "@"%char r)
          /\ ~ In "@"%char (list_ascii_of_string (headerName user))).
Proof.
  intros user. unfold headerName. split.
  - intros name E Hne. rewrite E. now destruct name.
  - intros [E | E]; rewrite E; simpl; apply before_at_prefix.
Qed.

Lemma headerName_shown_witness :
  User.first_name (User.mk 1 "ada@example.com" None None) = None
  /\ exists rest : string,
       "ada@example.com"
       = (headerName (User.mk 1 "ada@example.com" None None) ++ rest)%string
       /\ (rest = EmptyString \/ exists r, rest = String "@"%char r)
       /\ ~ In "@"%char
             (list_ascii_of_string
                (headerName (User.mk 1 "ada@example.com" None None))).
Proof.
  split; [reflexivity |].
  exact (proj2 (headerName_shown (User.mk 1 "ada@example.com" None None))
           (or_introl eq_refl)).
Defined.

(* ================================================================= *)
(** ** Cart page: [handleCheckout] *)

(** One run of [handleCheckout], by cases on the session and on how
    [checkout] completes. *)
Lemma handleCheckout_run (server : Server) (p : CartPage) :
  handleCheckout server p
  = match AuthState.user (auth (world p)), AuthState.token (auth (world p)) with
    | Some u, Some t =>
        if truthy_string t
        then
          let p1 := setLoading true p in
          match checkout server (User.customer_id u) t (world p) with
          | (Normal _, w') =>
              (Normal tt,
               setLoading false
                 (router_push "/orders" (with_world (fun _ => w') p1)))
          | (Throw e, w') =>
              (Normal tt,
               setLoading false
                 (alert checkout_failed_text
                    (with_world (console_error "Checkout failed" e)
                       (with_world (fun _ => w') p1))))
          end
        else (Normal tt, router_push "/login" p)
    | _, _ => (Normal tt, router_push "/login" p)
    end.
Proof.
  unfold handleCheckout, bind, get_state.
  destruct (AuthState.user (auth (world p))) as [u |];
    [| reflexivity].
  destruct (AuthState.token (auth (world p))) as [t |]; [| reflexivity].
  destruct (truthy_string t); simpl; [| reflexivity].
  unfold try_finally, try_catch, bind, modify, in_world. simpl.
  destruct (checkout server (User.customer_id u) t (world p)) as [[data | e] w'];
    reflexivity.
Qed.

(** X20: without a signed-in user, or without a non-empty token,
    [handleCheckout] sends the visitor to [/login] and does nothing
    else: no order is sent, the cart and the loading flag are as
    before, and no alert is shown. *)
Theorem handleCheckout_needs_session :
  forall (server : Server) (p : CartPage),
    AuthState.user (auth (world p)) = None
    \/ AuthState.token (auth (world p)) = None
    \/ AuthState.token (auth (world p)) = Some EmptyString ->
    handleCheckout server p = (Normal tt, router_push "/login" p).
Proof.
  intros server p H. rewrite handleCheckout_run.
  destruct (AuthState.user (auth (world p))) as [u |]; [| reflexivity].
  destruct (AuthState.token (auth (world p))) as [t |]; [| reflexivity].
  destruct H as [H | [H | H]]; try discriminate.
  injection H as ->. reflexivity.
Qed.

Lemma handleCheckout_needs_session_witness :
  AuthState.user (auth (world (fresh_cart_page guest_world))) = None
  /\ handleCheckout (constant_server clearing_reply) (fresh_cart_page guest_world)
     = (Normal tt, router_push "/login" (fresh_cart_page guest_world)).
Proof.
  split; [reflexivity |].
  apply handleCheckout_needs_session. left. reflexivity.
Defined.

(** X21: when [checkout] throws (empty cart or rejected order),
    [handleCheckout] does not throw: it shows one alert with the fixed
    text 'Checkout failed. Please try again.', whatever was thrown, does
    not navigate, leaves the cart as it was and resets the loading
    flag. *)
Theorem handleCheckout_failure :
  forall (server : Server) (p : CartPage) (u : User.t) (t : string)
         (e : JsValue),
    AuthState.user (auth (world p)) = Some u ->
    AuthState.token (auth (world p)) = Some t ->
    t <> EmptyString ->
    result (checkout server (User.customer_id u) t) (world p) = Throw e ->
    let p' := exec (handleCheckout server) p in
    result (handleCheckout server) p = Normal tt
    /\ alerts p' = alerts p ++ ["Checkout failed. Please try again."]
    /\ pushed p' = pushed p
    /\ cart (world p') = cart (world p)
    /\ loading p' = false
    /\ console (world p') = console (world p) ++ [("Checkout failed", e)].
Proof.
  intros server p u t e Hu Ht Hne Hthrow p'. subst p'.
  unfold result, exec in *. rewrite handleCheckout_run, Hu, Ht.
  destruct t as [| c t']; [congruence |]. simpl truthy_string. cbv iota zeta.
  revert Hthrow. rewrite checkout_run.
  destruct (CartState.items (cart (world p))) as [| item rest] eqn:Eitems.
  - simpl. intros [= <-]. now repeat split.
  - cbv zeta. destruct (orders_api server _ _) as [data | e'] eqn:Eapi; simpl.
    + discriminate.
    + intros [= <-]. now repeat split.
Qed.

Lemma handleCheckout_failure_witness :
  "tok" <> EmptyString
  /\ alerts (exec (handleCheckout (unreachable_server network_down))
               (fresh_cart_page (page_with_input "")))
     = ["Checkout failed. Please try again."].
Proof.
  assert (H : "tok" <> EmptyString) by discriminate.
  split; [exact H |].
  exact (proj1 (proj2
           (handleCheckout_failure (unreachable_server network_down)
              (fresh_cart_page (page_with_input "")) sample_user "tok"
              network_down eq_refl eq_refl H eq_refl))).
Defined.

(** X22: when [checkout] resolves, [handleCheckout] navigates to
    [/orders], shows no alert, leaves the cart empty and the loading
    flag reset, and sends exactly one order to the orders endpoint: its
    customer id is the signed-in user's, its line items are the cart
    items from before, one to one and in order, its payment method is
    'Credit Card', and its authorization header is 'Bearer <token>'. *)
Theorem handleCheckout_success :
  forall (server : Server) (p : CartPage) (u : User.t) (t : string)
         (data : JsValue),
    AuthState.user (auth (world p)) = Some u ->
    AuthState.token (auth (world p)) = Some t ->
    t <> EmptyString ->
    result (checkout server (User.customer_id u) t) (world p) = Normal data ->
    let p' := exec (handleCheckout server) p in
    result (handleCheckout server) p = Normal tt
    /\ pushed p' = pushed p ++ ["/orders"]
    /\ alerts p' = alerts p
    /\ CartState.items (cart (world p')) = []
    /\ loading p' = false
    /\ exists body : OrderRequest.t,
         network (world p')
         = network (world p)
           ++ [PostOrder "http://localhost:8000/api/orders" body
                 (String.append "Bearer " t)]
         /\ OrderRequest.customer_id body = User.customer_id u
         /\ OrderRequest.payment_method body = "Credit Card"
         /\ OrderRequest.shipping_address body
            = Address.mk "123 Main St" "New York" "NY"
         /\ Forall2
              (fun item li =>
                 LineItem.sku_id li = CartItem.product_id item
                 /\ LineItem.quantity li = CartItem.quantity item
                 /\ LineItem.unit_price li
                    = match CartItem.price item with Some x => x | None => 0 end)
              (CartState.items (cart (world p)))
              (OrderRequest.line_items body).
Proof.
  intros server p u t data Hu Ht Hne Hok p'. subst p'.
  unfold result, exec in *. rewrite handleCheckout_run, Hu, Ht.
  destruct t as [| c t']; [congruence |]. simpl truthy_string. cbv iota zeta.
  revert Hok. rewrite checkout_run.
  destruct (CartState.items (cart (world p))) as [| item rest] eqn:Eitems.
  - simpl. discriminate.
  - cbv zeta. destruct (orders_api server _ _) as [d | e'] eqn:Eapi; simpl.
    + intros _. split; [reflexivity |]. split; [reflexivity |].
      split; [reflexivity |]. split; [reflexivity |].
      split; [reflexivity |].
      exists (order_payload (User.customer_id u) (item :: rest)).
      split; [reflexivity |]. split; [reflexivity |].
      split; [reflexivity |]. split; [reflexivity |].
      clear. induction (item :: rest) as [| x l IH]; simpl;
        constructor; [| exact IH].
      simpl. now rewrite or_zero_default.
    + discriminate.
Qed.

Lemma handleCheckout_success_witness :
  "tok" <> EmptyString
  /\ pushed (exec (handleCheckout (constant_server clearing_reply))
               (fresh_cart_page (page_with_input "")))
     = ["/orders"]
  /\ exists body : OrderRequest.t,
       network (world (exec (handleCheckout (constant_server clearing_reply))
                         (fresh_cart_page (page_with_input ""))))
       = [PostOrder "http://localhost:8000/api/orders" body "Bearer tok"]
       /\ OrderRequest.customer_id body = 42.
Proof.
  assert (H : "tok" <> EmptyString) by discriminate.
  split; [exact H |].
  destruct (handleCheckout_success (constant_server clearing_reply)
              (fresh_cart_page (page_with_input "")) sample_user "tok"
              (JObject []) eq_refl eq_refl H eq_refl)
    as (_ & Hpushed & _ & _ & _ & body & Hnet & Hcust & _).
  split; [exact Hpushed |].
  exists body. split; [exact Hnet | exact Hcust].
Defined.
